(** * Two-level parallel feature gathering ([sentinel_satellites.py])

    A shallow embedding of [Notebooks/utils/sentinel_satellites.py] and of the
    interface of [Notebooks/utils/radar_features.py], with the properties of
    the aggregation that the specification states.

    Python exceptions are values of [exn]; a computation that may raise
    returns a [result].  The two thread pools are modelled by the order in
    which [concurrent.futures.as_completed] hands the futures back, which is
    a parameter of every run: the tasks share no mutable state, so that order
    is all a caller can observe of the scheduling. *)

From Stdlib Require Import String Ascii Bool ZArith Lia.
From Stdlib Require Import List Permutation Sorted.
Import ListNotations.

Local Open Scope string_scope.
Local Open Scope list_scope.
Local Open Scope Z_scope.

(** ** Exceptions and results *)

Inductive exn : Type :=
| ValueError
| ZeroDivisionError
| IndexError
| KeyError
| AttributeError
| TypeError
| UnboundLocalError
| EEException (msg : string).

(** The class name of an exception, as Python reports it. *)
Definition exn_name (e : exn) : string :=
  match e with
  | ValueError => "ValueError"
  | ZeroDivisionError => "ZeroDivisionError"
  | IndexError => "IndexError"
  | KeyError => "KeyError"
  | AttributeError => "AttributeError"
  | TypeError => "TypeError"
  | UnboundLocalError => "UnboundLocalError"
  | EEException _ => "EEException"
  end.

Inductive result (A : Type) : Type :=
| Ok (a : A)
| Raise (e : exn).

Arguments Ok {A} a.
Arguments Raise {A} e.

Definition bind {A B : Type} (m : result A) (k : A -> result B) : result B :=
  match m with
  | Ok a => k a
  | Raise e => Raise e
  end.

Notation "x <- m ;; k" := (bind m (fun x => k))
  (at level 61, m at next level, right associativity).

Definition fails {A : Type} (m : result A) : Prop := exists e, m = Raise e.

(** Evaluate a list of computations left to right; the first exception wins. *)
Fixpoint sequence {A : Type} (ms : list (result A)) : result (list A) :=
  match ms with
  | [] => Ok []
  | m :: ms' => a <- m ;; l <- sequence ms' ;; Ok (a :: l)
  end.

(** ** Python built-ins used by the aggregation *)

Definition len {A : Type} (l : list A) : Z := Z.of_nat (length l).

(** [a // b]: floor division, [ZeroDivisionError] on a zero divisor.
    [Z.div] rounds towards minus infinity, as Python does. *)
Definition floordiv (a b : Z) : result Z :=
  if b =? 0 then Raise ZeroDivisionError else Ok (a / b).

(** [range(start, stop, step)] as a list; a zero step is a [ValueError].
    The number of elements is the one CPython computes. *)
Definition py_range (start stop step : Z) : result (list Z) :=
  if step =? 0 then Raise ValueError
  else
    let n :=
      if 0 <? step
      then (if start <? stop then (stop - start - 1) / step + 1 else 0)
      else (if stop <? start then (start - stop - 1) / (- step) + 1 else 0) in
    Ok (map (fun j => start + Z.of_nat j * step) (seq 0 (Z.to_nat n))).

(** [l[a:b]]: out-of-range bounds are clamped, negative ones count from the
    end. *)
Definition clamp_index (n i : Z) : Z :=
  if i <? 0 then Z.max 0 (i + n) else Z.min i n.

Definition slice {A : Type} (l : list A) (a b : Z) : list A :=
  let a' := clamp_index (len l) a in
  let b' := clamp_index (len l) b in
  firstn (Z.to_nat (b' - a')) (skipn (Z.to_nat a') l).

(** [concurrent.futures.ThreadPoolExecutor(max_workers)]: the constructor
    rejects a worker count below one. *)
Definition ThreadPoolExecutor (max_workers : Z) : result unit :=
  if max_workers <=? 0 then Raise ValueError else Ok tt.

(** [concurrent.futures.as_completed(futures)]: the futures in the order in
    which they finish.  [picks] is the scheduler's choice: at each step the
    future at position [pick mod remaining] of those still running finishes
    next.  Every order of completion is some [picks]. *)
Fixpoint remove_nth {A : Type} (i : nat) (l : list A) : list A :=
  match l, i with
  | [], _ => []
  | _ :: l', O => l'
  | x :: l', S i' => x :: remove_nth i' l'
  end.

Fixpoint completion_order {A : Type} (fuel : nat) (picks : list nat)
  (running : list A) : list A :=
  match fuel, running with
  | O, _ => []
  | _, [] => []
  | S fuel', x :: rest =>
      let i := (hd O picks mod length running)%nat in
      nth i running x
        :: completion_order fuel' (tl picks) (remove_nth i running)
  end.

Definition as_completed {A : Type} (picks : list nat) (futures : list A)
  : list A :=
  completion_order (length futures) picks futures.

(** [for future in as_completed(futures): acc.extend(future.result())]:
    [result()] re-raises the exception of the first finished future that
    failed. *)
Definition gather {A : Type} (picks : list nat)
  (futures : list (result (list A))) : result (list A) :=
  ls <- sequence (as_completed picks futures) ;; Ok (concat ls).

(** ** Splitting the date range ([parallelize_features_read], lines 150-153) *)

Definition split_dates {A : Type} (date_range : list A) (num_chunks : Z)
  : result (list (list A)) :=
  chunk_size <- floordiv (len date_range) num_chunks ;;
  starts <- py_range 0 (len date_range) chunk_size ;;
  Ok (map (fun i => slice date_range i (i + chunk_size)) starts).

(** The same chunks as a recursion on their number: [m] times, cut [c]
    elements off the front. *)
Fixpoint chunks_of {A : Type} (c m : nat) (l : list A) : list (list A) :=
  match m with
  | O => []
  | S m' => firstn c l :: chunks_of c m' (skipn c l)
  end.

(** ** Values *)

(** Acquisition dates are calendar days; a [pd.Timestamp] is the day number. *)
Definition date : Type := Z.

Section Model.

(** The scalar means that the imagery platform computes (floating-point
    numbers) and the polygon coordinates stored in the fields table are
    opaque to this code: it only passes them on. *)
Variable num : Type.
Variable coords : Type.

(** [ee.Geometry.Polygon(coordinates)]: a description of the polygon for
    the platform; building it fetches nothing. *)
Inductive Geometry : Type :=
| Polygon (coordinates : coords).

(** An [ee.ImageCollection] is a query: a collection name and the filters
    applied to it so far.  Nothing is fetched until [getInfo()]. *)
Inductive ee_filter : Type :=
| filterBounds (g : Geometry)
| filterDate (start_date end_date : string)
| listContains (property value : string)
| filter_eq (property value : string)
| filter_lt (property : string) (bound : Z).

Record ImageCollection : Type := {
  collection : string;
  filters : list ee_filter
}.

#[warnings="-register-all"]
Inductive pyval : Type :=
| PNone
| PStr (s : string)
| PInt (z : Z)
| PFloat (x : num)
| PTimestamp (d : date)
| PDict (items : list (string * pyval))
| PCollection (c : ImageCollection)
| PGeometry (g : Geometry).

(** ** Dictionaries: insertion-ordered, one binding per key *)

Definition row : Type := list (string * pyval).

Fixpoint dict_get (d : row) (k : string) : option pyval :=
  match d with
  | [] => None
  | (k', v) :: d' => if String.eqb k k' then Some v else dict_get d' k
  end.

(** [d[k] = v]: a key already present keeps its position. *)
Fixpoint dict_set (d : row) (k : string) (v : pyval) : row :=
  match d with
  | [] => [(k, v)]
  | (k', v') :: d' =>
      if String.eqb k k' then (k', v) :: d' else (k', v') :: dict_set d' k v
  end.

(** A dictionary display [{k1: v1, k2: v2, ...}]. *)
Definition dict_of (items : list (string * pyval)) : row :=
  fold_left (fun d kv => dict_set d (fst kv) (snd kv)) items [].

Definition keys (d : row) : list string := map fst d.

(** [v[k]] on a value. *)
Definition subscript (v : pyval) (k : string) : result pyval :=
  match v with
  | PDict items =>
      match dict_get items k with
      | Some x => Ok x
      | None => Raise KeyError
      end
  | _ => Raise TypeError
  end.

(** ** The collaborators *)

(** What the code reaches outside the two modules embedded here: the worker
    count [T] of a default [ThreadPoolExecutor()], the imagery platform
    behind [getInfo()], the functions of the [optical_features] module, and
    what pandas does with the numbers and the objects of a sort column.

    [reduceRegion expr image d polygon] is the dictionary that
    [expr.reduceRegion(reducer=ee.Reducer.mean(), geometry=polygon).getInfo()]
    returns for the band expression named [expr], built on the image of day
    [d]: the empty name is the image itself, the others are the expressions of
    [radar_features.py].  [float_of_int] and [float_leb] are the conversion
    of an integer to a floating-point number and the place of two such
    numbers in a sorted column; [object_sortable] tells whether pandas can
    order a column of mixed objects, and [object_leb] is the order it gives
    them. *)
Record Platform : Type := {
  max_workers : Z;
  getInfo_dates : ImageCollection -> result (list date);
  reduceRegion : string -> ImageCollection -> date -> pyval -> result pyval;
  optical_features : string -> list pyval -> result pyval;
  float_of_int : Z -> num;
  float_leb : num -> num -> bool;
  object_sortable : list pyval -> bool;
  object_leb : pyval -> pyval -> bool
}.

Variable env : Platform.

(** ** [radar_features.py] *)

(** The functions the module defines, with the number of required and of
    optional positional parameters. *)
Definition radar_features_defs : list (string * (nat * nat)) :=
  [ ("get_polarization", (3%nat, 1%nat));
    ("calculate_radar_vegetation_index", (3%nat, 0%nat));
    ("calculate_simple_index", (3%nat, 1%nat));
    ("calculate_normalized_difference_index", (3%nat, 0%nat)) ].

Fixpoint lookup_def {B : Type} (name : string) (defs : list (string * B))
  : option B :=
  match defs with
  | [] => None
  | (n, b) :: defs' => if String.eqb name n then Some b else lookup_def name defs'
  end.

(** Every function of the module starts by selecting the image of the
    date, [image.filterDate(date.strftime(...), ...)]: what is not an image
    collection has no [filterDate], what is not a timestamp no [strftime]. *)
Definition image_of_date (image d : pyval)
  : result (ImageCollection * date) :=
  match image, d with
  | PCollection c, PTimestamp day => Ok (c, day)
  | _, _ => Raise AttributeError
  end.

(** [v[key]] with any value as the key: a dictionary cannot be hashed, and
    no other value is equal to a string key. *)
Definition getitem (v key : pyval) : result pyval :=
  match key with
  | PStr k => subscript v k
  | PDict _ => Raise TypeError
  | _ =>
      match v with
      | PDict _ => Raise KeyError
      | _ => Raise TypeError
      end
  end.

(** The bodies.  They are called with three or four positional arguments
    ([radar_features] below checks the count); [type] defaults to the empty
    string. *)
Definition get_polarization (args : list pyval) : result pyval :=
  let body image d polygon type :=
    img <- image_of_date image d ;;
    means <- reduceRegion env "" (fst img) (snd img) polygon ;;
    getitem means type in
  match args with
  | [image; d; polygon] => body image d polygon (PStr "")
  | [image; d; polygon; type] => body image d polygon type
  | _ => Raise TypeError
  end.

Definition calculate_radar_vegetation_index (args : list pyval)
  : result pyval :=
  match args with
  | [image; d; polygon] =>
      img <- image_of_date image d ;;
      means <- reduceRegion env "RVI" (fst img) (snd img) polygon ;;
      subscript means "RVI"
  | _ => Raise TypeError
  end.

Definition simple_index_types : list string := ["AVE"; "DIF"; "RAT1"; "RAT2"].

(** The [if]/[elif] chain of lines 110-117 has no [else]: with a [type]
    that is equal to none of the four strings the local [op] is never
    assigned, and line 120 reads it. *)
Definition calculate_simple_index (args : list pyval) : result pyval :=
  let body image d polygon type :=
    img <- image_of_date image d ;;
    match type with
    | PStr t =>
        if existsb (String.eqb t) simple_index_types
        then means <- reduceRegion env t (fst img) (snd img) polygon ;;
             subscript means t
        else Raise UnboundLocalError
    | _ => Raise UnboundLocalError
    end in
  match args with
  | [image; d; polygon] => body image d polygon (PStr "")
  | [image; d; polygon; type] => body image d polygon type
  | _ => Raise TypeError
  end.

Definition calculate_normalized_difference_index (args : list pyval)
  : result pyval :=
  match args with
  | [image; d; polygon] =>
      img <- image_of_date image d ;;
      means <- reduceRegion env "NDI" (fst img) (snd img) polygon ;;
      subscript means "NDI"
  | _ => Raise TypeError
  end.

Definition radar_body (name : string) : list pyval -> result pyval :=
  if String.eqb name "get_polarization" then get_polarization
  else if String.eqb name "calculate_radar_vegetation_index"
       then calculate_radar_vegetation_index
  else if String.eqb name "calculate_simple_index" then calculate_simple_index
  else calculate_normalized_difference_index.

(** [radar_features.name(args)]: the attribute lookup fails on a name the
    module does not define, the call fails when the argument count does not
    fit the signature. *)
Definition radar_features (name : string) (args : list pyval)
  : result pyval :=
  match lookup_def name radar_features_defs with
  | None => Raise AttributeError
  | Some (required, optional) =>
      if ((required <=? length args) && (length args <=? required + optional))%nat
      then radar_body name args
      else Raise TypeError
  end.

(** ** [process_chunk] *)

(** The Sentinel-1 branch of the loop body (lines 26-38). *)
Definition radar_acquisition (s_filtered : ImageCollection) (d : date)
  (polygon : Geometry) (field_col_name field_name : string) : result row :=
  polarizations_means <-
    radar_features "get_all_polarizations"
      [PCollection s_filtered; PTimestamp d; PGeometry polygon] ;;
  ave <- radar_features "calculate_simple_index"
           [polarizations_means; PStr "AVE"] ;;
  dif <- radar_features "calculate_simple_index"
           [polarizations_means; PStr "DIF"] ;;
  rat1 <- radar_features "calculate_simple_index"
            [polarizations_means; PStr "RAT1"] ;;
  rat2 <- radar_features "calculate_simple_index"
            [polarizations_means; PStr "RAT2"] ;;
  ndi <- radar_features "calculate_normalized_difference_index"
           [polarizations_means] ;;
  rvi <- radar_features "calculate_radar_vegetation_index"
           [polarizations_means] ;;
  vv <- subscript polarizations_means "VV" ;;
  vh <- subscript polarizations_means "VH" ;;
  Ok (dict_of
        [ (field_col_name, PStr field_name);
          ("s1_acquisition_date", PTimestamp d);
          ("VV", vv); ("VH", vh);
          ("AVE", ave); ("DIF", dif); ("RAT1", rat1); ("RAT2", rat2);
          ("NDI", ndi); ("RVI", rvi) ]).

(** The Sentinel-2 branch (lines 42-121).  The index calls, in the order of
    the statements: column, function of [optical_features], and the
    arguments after [bands_means]. *)
Definition optical_index_calls : list (string * (string * list pyval)) :=
  let vi := "calculate_vegetation_index" in
  let eomi := "calculate_exogenous_organic_matter_index" in
  let nbr := "calculate_normalized_burn_ratio" in
  let ci := "calculate_chlorophyll_index" in
  let ndre := "calculate_normalized_difference_red_edge" in
  let cari := "calculate_chlorophyll_absorption_ratio_index" in
  let mcari := "calculate_modified_chlorophyll_absorption_reflectance_index" in
  [ ("NDVI", (vi, [PStr "ND"])); ("NSNDVI", (vi, [PStr "NSND"]));
    ("GNDVI", (vi, [PStr "GND"]));
    ("RENDVI1", (vi, [PStr "REND"; PInt 1]));
    ("RENDVI2", (vi, [PStr "REND"; PInt 2]));
    ("RENDVI3", (vi, [PStr "REND"; PInt 3]));
    ("GRNDVI", (vi, [PStr "GRND"])); ("GBNDVI", (vi, [PStr "GBND"]));
    ("SAVI", (vi, [PStr "SA"])); ("OSAVI", (vi, [PStr "OSA"]));
    ("MSAVI", (vi, [PStr "MSA"])); ("TSAVI", (vi, [PStr "TSA"]));
    ("ATSAVI", (vi, [PStr "ATSA"])); ("RVI", (vi, [PStr "R"]));
    ("DVI", (vi, [PStr "D"])); ("CVI", (vi, [PStr "C"]));
    ("CTVI", (vi, [PStr "CT"])); ("AVI", (vi, [PStr "A"]));
    ("ARVI1", (vi, [PStr "AR"; PInt 1])); ("ARVI2", (vi, [PStr "AR"; PInt 2]));
    ("EVI1", (vi, [PStr "E"; PInt 1])); ("EVI2", (vi, [PStr "E"; PInt 2]));
    ("EVI3", (vi, [PStr "E"; PInt 3])); ("WDRVI", (vi, [PStr "WDR"]));
    ("MTVI1", (vi, [PStr "MT"; PInt 1])); ("MTVI2", (vi, [PStr "MT"; PInt 2]));
    ("EOMI1", (eomi, [PInt 1])); ("EOMI2", (eomi, [PInt 2]));
    ("EOMI3", (eomi, [PInt 3])); ("EOMI4", (eomi, [PInt 4]));
    ("NBR", (nbr, [])); ("NBR2", (nbr, [PInt 2]));
    ("CI1", (ci, [PInt 1])); ("CI2", (ci, [PInt 2])); ("CI3", (ci, [PInt 3]));
    ("GCI", ("calculate_green_coverage_index", []));
    ("SCI", ("calculate_soil_composition_index", []));
    ("NDRE1", (ndre, [PInt 1])); ("NDRE2", (ndre, [PInt 2]));
    ("NDRE3", (ndre, [PInt 3]));
    ("CARI1", (cari, [PInt 1])); ("CARI2", (cari, [PInt 2]));
    ("MCARI", (mcari, [])); ("MCARI1", (mcari, [PInt 1]));
    ("MCARI2", (mcari, [PInt 2]));
    ("BSI", ("calculate_bare_soil_index", []));
    ("GLI", ("calculate_green_leaf_index", []));
    ("ALTERATION", ("calculate_alteration_index", []));
    ("SDI", ("calculate_swir_difference_index", [])) ].

Definition optical_bands : list string :=
  ["B1"; "B2"; "B3"; "B4"; "B5"; "B6"; "B7"; "B8"; "B8A"; "B9"; "B11"; "B12"].

Definition optical_acquisition (s_filtered : ImageCollection) (d : date)
  (polygon : Geometry) (field_col_name field_name : string) : result row :=
  bands_means <-
    optical_features env "get_all_bands"
      [PCollection s_filtered; PTimestamp d; PGeometry polygon] ;;
  indices <-
    sequence
      (map (fun c =>
              optical_features env (fst (snd c)) (bands_means :: snd (snd c)))
           optical_index_calls) ;;
  bands <- sequence (map (subscript bands_means) optical_bands) ;;
  Ok (dict_of
        ((field_col_name, PStr field_name)
           :: ("s2_acquisition_date", PTimestamp d)
           :: combine optical_bands bands
           ++ combine (map fst optical_index_calls) indices)).

(** One iteration of [for date in chunk].  [df_acquisition] is a local
    variable: it holds no value until one of the two branches assigns it. *)
Definition chunk_step (s_filtered : ImageCollection) (polygon : Geometry)
  (field_col_name field_name : string) (sentinel : Z)
  (st : list row * option row) (d : date)
  : result (list row * option row) :=
  let '(acquisitions, df_acquisition) := st in
  df_acquisition <-
    (if sentinel =? 1 then
       r <- radar_acquisition s_filtered d polygon field_col_name field_name ;;
       Ok (Some r)
     else if sentinel =? 2 then
       r <- optical_acquisition s_filtered d polygon field_col_name field_name ;;
       Ok (Some r)
     else Ok df_acquisition) ;;
  match df_acquisition with
  | None => Raise UnboundLocalError
  | Some r => Ok (acquisitions ++ [r], df_acquisition)
  end.

Fixpoint for_each {S X : Type} (body : S -> X -> result S) (st : S)
  (xs : list X) : result S :=
  match xs with
  | [] => Ok st
  | x :: xs' => st' <- body st x ;; for_each body st' xs'
  end.

Definition process_chunk (s_filtered : ImageCollection) (chunk : list date)
  (polygon : Geometry) (field_col_name field_name : string) (sentinel : Z)
  : result (list row) :=
  st <- for_each
          (chunk_step s_filtered polygon field_col_name field_name sentinel)
          ([], None) chunk ;;
  Ok (fst st).

(** ** [parallelize_features_read] *)

(** [picks] is the completion order of the chunk tasks. *)
Definition parallelize_features_read (picks : list nat)
  (s_filtered : ImageCollection) (date_range : list date)
  (polygon : Geometry) (field_col_name field_name : string) (sentinel : Z)
  (already_occupied_threads : Z) : result (list row) :=
  let num_chunks := max_workers env - already_occupied_threads in
  date_chunks <- split_dates date_range num_chunks ;;
  _ <- ThreadPoolExecutor num_chunks ;;
  let futures :=
    map (fun chunk =>
           process_chunk s_filtered chunk polygon field_col_name field_name
             sentinel)
        date_chunks in
  gather picks futures.

(** ** The fields table *)

Record field : Type := {
  field_name : string;
  field_polygon : coords
}.

(** What [get_features] is given: a table of fields, or one row of it.  The
    table has the two columns the code reads, the identifier (labelled
    [label]) and the polygon coordinates; column labels are strings. *)
Inductive pandas_obj : Type :=
| Series (label : string) (f : field)
| DataFrame (label : string) (rows : list field).

Definition pandas_len (o : pandas_obj) : Z :=
  match o with
  | Series _ _ => 2
  | DataFrame _ rows => len rows
  end.

(** [field[0]] and [field[1]]: by position on a row; on a table the integer
    is looked up among the column labels, which are strings: no such key. *)
Definition item0 (o : pandas_obj) : result string :=
  match o with
  | Series _ f => Ok (field_name f)
  | DataFrame _ _ => Raise KeyError
  end.

Definition item1 (o : pandas_obj) : result coords :=
  match o with
  | Series _ f => Ok (field_polygon f)
  | DataFrame _ _ => Raise KeyError
  end.

(** [field.index[0]]: the label of the first entry of a row; the index of
    a table is its row numbers. *)
Definition index0 (o : pandas_obj) : result string :=
  match o with
  | Series label _ => Ok label
  | DataFrame _ [] => Raise IndexError
  | DataFrame _ (_ :: _) => Ok "0"
  end.

(** [fields_df.iterrows()]: the rows of a table; a row has no such method. *)
Definition iterrows (o : pandas_obj) : result (list pandas_obj) :=
  match o with
  | Series _ _ => Raise AttributeError
  | DataFrame label rows => Ok (map (Series label) rows)
  end.

(** ** [process_field] *)

Definition sentinel1_collection (polygon : Geometry)
  (start_date end_date : string) : ImageCollection :=
  {| collection := "COPERNICUS/S1_GRD_FLOAT";
     filters :=
       [ filterBounds polygon;
         filterDate start_date end_date;
         listContains "transmitterReceiverPolarisation" "VV";
         listContains "transmitterReceiverPolarisation" "VH";
         filter_eq "instrumentMode" "IW" ] |}.

Definition sentinel2_collection (polygon : Geometry)
  (start_date end_date : string) : ImageCollection :=
  {| collection := "COPERNICUS/S2_SR";
     filters :=
       [ filterBounds polygon;
         filterDate start_date end_date;
         filter_lt "CLOUDY_PIXEL_PERCENTAGE" 40 ] |}.

(** The local [s_filtered] after the [if]/[elif] of lines 189-201: unassigned
    when [sentinel] is neither 1 nor 2. *)
Definition filter_collection (sentinel : Z) (polygon : Geometry)
  (start_date end_date : string) : option ImageCollection :=
  if sentinel =? 1 then Some (sentinel1_collection polygon start_date end_date)
  else if sentinel =? 2
       then Some (sentinel2_collection polygon start_date end_date)
  else None.

Definition process_field (picks : list nat) (fld : pandas_obj)
  (start_date end_date : string) (sentinel : Z)
  (already_occupied_threads : Z) : result (list row) :=
  name <- item0 fld ;;
  coordinates <- item1 fld ;;
  let polygon := Polygon coordinates in
  match filter_collection sentinel polygon start_date end_date with
  | None => Raise UnboundLocalError
  | Some s_filtered =>
      date_range <- getInfo_dates env s_filtered ;;
      field_col_name <- index0 fld ;;
      parallelize_features_read picks s_filtered date_range polygon
        field_col_name name sentinel already_occupied_threads
  end.

(** ** The result table: [pd.DataFrame(df_list)] and [sort_values] *)

(** The columns of a table built from a list of dictionaries: their keys, in
    the order in which they first appear. *)
Definition columns (df : list row) : list string :=
  fold_left
    (fun cols r =>
       cols ++ filter (fun k => negb (existsb (String.eqb k) cols)) (keys r))
    df [].

(** [df.columns[i]]. *)
Definition column_at (df : list row) (i : nat) : result string :=
  match nth_error (columns df) i with
  | Some c => Ok c
  | None => Raise IndexError
  end.

(** The cell of a row in a column.  A row without the key has a missing
    value there, which pandas treats as it does [None]. *)
Definition cell (c : string) (r : row) : pyval :=
  match dict_get r c with
  | Some v => v
  | None => PNone
  end.

(** How pandas types a column when it builds the table: strings stay
    Python objects, integers alone are [int64], numbers (integers with a
    floating-point number or with a missing value among them) are
    [float64], timestamps are [datetime64]; missing values are allowed in
    all but [int64].  Anything else is a column of mixed objects. *)
Inductive column_kind : Type :=
| strings
| integers
| floats
| timestamps
| objects.

Definition is_none (v : pyval) : bool :=
  match v with PNone => true | _ => false end.

Definition is_str (v : pyval) : bool :=
  match v with PStr _ => true | _ => false end.

Definition is_int (v : pyval) : bool :=
  match v with PInt _ => true | _ => false end.

Definition is_float (v : pyval) : bool :=
  match v with PFloat _ => true | _ => false end.

Definition is_timestamp (v : pyval) : bool :=
  match v with PTimestamp _ => true | _ => false end.

(** The kind of a sort column; [sort_values] raises [TypeError] on a column
    of objects that pandas cannot order. *)
Definition kind_of (cells : list pyval) : result column_kind :=
  if forallb (fun v => is_str v || is_none v) cells then Ok strings
  else if forallb is_int cells then Ok integers
  else if forallb (fun v => is_int v || is_float v || is_none v) cells
       then Ok floats
  else if forallb (fun v => is_timestamp v || is_none v) cells
       then Ok timestamps
  else if object_sortable env cells then Ok objects
  else Raise TypeError.

Definition number (v : pyval) : option num :=
  match v with
  | PInt z => Some (float_of_int env z)
  | PFloat x => Some x
  | _ => None
  end.

(** The order of two cells of a column of kind [k], ascending with
    [na_position='last']: strings compare by code point, timestamps
    chronologically, numbers by value; a missing value comes after
    everything else. *)
Definition value_leb (k : column_kind) (a b : pyval) : bool :=
  match a, b with
  | _, PNone => true
  | PNone, _ => false
  | _, _ =>
      match k with
      | strings =>
          match a, b with
          | PStr s, PStr t => String.leb s t
          | _, _ => true
          end
      | integers =>
          match a, b with
          | PInt x, PInt y => x <=? y
          | _, _ => true
          end
      | floats =>
          match number a, number b with
          | Some x, Some y => float_leb env x y
          | _, _ => true
          end
      | timestamps =>
          match a, b with
          | PTimestamp x, PTimestamp y => x <=? y
          | _, _ => true
          end
      | objects => object_leb env a b
      end
  end.

(** Rows compared on two columns, the first one deciding unless it ties. *)
Definition rows_leb (k0 k1 : column_kind) (c0 c1 : string) (r1 r2 : row)
  : bool :=
  if value_leb k0 (cell c0 r1) (cell c0 r2)
  then if value_leb k0 (cell c0 r2) (cell c0 r1)
       then value_leb k1 (cell c1 r1) (cell c1 r2)
       else true
  else false.

(** A stable sort: a row goes before the first row that is not before it. *)
Fixpoint insert_row (leb : row -> row -> bool) (r : row) (sorted : list row)
  : list row :=
  match sorted with
  | [] => [r]
  | r' :: rest =>
      if leb r r' then r :: r' :: rest else r' :: insert_row leb r rest
  end.

Fixpoint sort_rows (leb : row -> row -> bool) (df : list row) : list row :=
  match df with
  | [] => []
  | r :: df' => insert_row leb r (sort_rows leb df')
  end.

(** [df.sort_values([c0, c1], ascending=[True, True])]. *)
Definition sort_values (c0 c1 : string) (df : list row) : result (list row) :=
  k0 <- kind_of (map (cell c0) df) ;;
  k1 <- kind_of (map (cell c1) df) ;;
  Ok (sort_rows (rows_leb k0 k1 c0 c1) df).

(** ** [get_features] *)

(** The [executor.submit(process_field, ...)] calls of lines 247-251, in
    the order of submission: the argument [field] and the argument
    [already_occupied_threads] of each. *)
Definition submissions (fields_df : pandas_obj) (fields_threads : Z)
  : result (list (pandas_obj * Z)) :=
  if pandas_len fields_df =? 2 then Ok [(fields_df, fields_threads)]
  else
    rows <- iterrows fields_df ;;
    Ok (map (fun fld => (fld, fields_threads)) rows).

(** Run the submitted tasks; task number [i] completes its chunks in the
    order [inner i]. *)
Fixpoint run_tasks (inner : nat -> list nat) (i : nat)
  (tasks : list (pandas_obj * Z)) (start_date end_date : string)
  (sentinel : Z) : list (result (list row)) :=
  match tasks with
  | [] => []
  | (fld, occupied) :: tasks' =>
      process_field (inner i) fld start_date end_date sentinel occupied
        :: run_tasks inner (S i) tasks' start_date end_date sentinel
  end.

(** [outer] is the completion order of the field tasks. *)
Definition get_features (outer : list nat) (inner : nat -> list nat)
  (fields_df : pandas_obj) (start_date end_date : string) (sentinel : Z)
  (fields_threads : Z) : result (list row) :=
  _ <- ThreadPoolExecutor fields_threads ;;
  tasks <- submissions fields_df fields_threads ;;
  let futures := run_tasks inner 0 tasks start_date end_date sentinel in
  df_list <- gather outer futures ;;
  c0 <- column_at df_list 0 ;;
  c1 <- column_at df_list 1 ;;
  sort_values c0 c1 df_list.

(** ** Vocabulary of the statements *)

(** The fields of an input, in table order. *)
Definition fields_of (fields_df : pandas_obj) : list field :=
  match fields_df with
  | Series _ f => [f]
  | DataFrame _ rows => rows
  end.

Definition label_of (fields_df : pandas_obj) : string :=
  match fields_df with
  | Series label _ => label
  | DataFrame label _ => label
  end.

(** The acquisition dates the platform reports for a field. *)
Definition reported_dates (start_date end_date : string) (sentinel : Z)
  (f : field) : list date :=
  match filter_collection sentinel (Polygon (field_polygon f))
          start_date end_date with
  | Some s_filtered =>
      match getInfo_dates env s_filtered with
      | Ok ds => ds
      | Raise _ => []
      end
  | None => []
  end.

(** The (field, date) pairs of a run, field by field, dates in the order
    reported. *)
Definition reported_pairs (fields_df : pandas_obj)
  (start_date end_date : string) (sentinel : Z) : list (field * date) :=
  flat_map
    (fun f => map (pair f) (reported_dates start_date end_date sentinel f))
    (fields_of fields_df).

(** [r] is the row that the loop body of [process_chunk] makes for date [d]
    of field [f]. *)
Definition row_of_pair (label : string) (start_date end_date : string)
  (sentinel : Z) (p : field * date) (r : row) : Prop :=
  exists s_filtered,
    filter_collection sentinel (Polygon (field_polygon (fst p)))
      start_date end_date = Some s_filtered /\
    process_chunk s_filtered [snd p] (Polygon (field_polygon (fst p)))
      label (field_name (fst p)) sentinel = Ok [r].

(** The [optical_features] module answers every call, and the band means
    it returns hold all twelve bands. *)
Definition optical_answers : Prop :=
  (forall c d g,
     exists items,
       optical_features env "get_all_bands"
         [PCollection c; PTimestamp d; PGeometry g] = Ok (PDict items) /\
       Forall (fun b => dict_get items b <> None) optical_bands) /\
  (forall name args, exists v, optical_features env name args = Ok v).

(** The label of the date column. *)
Definition date_column (sentinel : Z) : string :=
  if sentinel =? 1 then "s1_acquisition_date" else "s2_acquisition_date".

(** The labels of the columns a row has besides the identifier. *)
Definition feature_columns (sentinel : Z) : list string :=
  if sentinel =? 1
  then ["s1_acquisition_date"; "VV"; "VH"; "AVE"; "DIF"; "RAT1"; "RAT2";
        "NDI"; "RVI"]
  else "s2_acquisition_date" :: optical_bands ++ map fst optical_index_calls.

(** The sort key of a row: its identifier and its acquisition date. *)
Definition row_key (label : string) (sentinel : Z) (r : row)
  : option (string * date) :=
  match dict_get r label, dict_get r (date_column sentinel) with
  | Some (PStr id), Some (PTimestamp d) => Some (id, d)
  | _, _ => None
  end.

End Model.

Arguments Polygon {coords} coordinates.
Arguments filterBounds {coords} g.
Arguments filterDate {coords} start_date end_date.
Arguments listContains {coords} property value.
Arguments filter_eq {coords} property value.
Arguments filter_lt {coords} property bound.
Arguments Build_ImageCollection {coords} collection filters.
Arguments collection {coords} i.
Arguments filters {coords} i.
Arguments PNone {num coords}.
Arguments PStr {num coords} s.
Arguments PInt {num coords} z.
Arguments PFloat {num coords} x.
Arguments PTimestamp {num coords} d.
Arguments PDict {num coords} items.
Arguments PCollection {num coords} c.
Arguments PGeometry {num coords} g.
Arguments dict_get {num coords} d k.
Arguments dict_set {num coords} d k v.
Arguments dict_of {num coords} items.
Arguments keys {num coords} d.
Arguments subscript {num coords} v k.
Arguments Build_Platform {num coords}.
Arguments max_workers {num coords} p.
Arguments getInfo_dates {num coords} p c.
Arguments reduceRegion {num coords} p expr c d polygon.
Arguments optical_features {num coords} p name args.
Arguments float_of_int {num coords} p z.
Arguments float_leb {num coords} p x y.
Arguments object_sortable {num coords} p cells.
Arguments object_leb {num coords} p a b.
Arguments image_of_date {num coords} image d.
Arguments getitem {num coords} v key.
Arguments get_polarization {num coords} env args.
Arguments calculate_radar_vegetation_index {num coords} env args.
Arguments calculate_simple_index {num coords} env args.
Arguments calculate_normalized_difference_index {num coords} env args.
Arguments radar_body {num coords} env name args.
Arguments radar_features {num coords} env name args.
Arguments radar_acquisition {num coords} env s_filtered d polygon
  field_col_name field_name.
Arguments optical_acquisition {num coords} env s_filtered d polygon
  field_col_name field_name.
Arguments chunk_step {num coords} env s_filtered polygon field_col_name
  field_name sentinel st d.
Arguments process_chunk {num coords} env s_filtered chunk polygon
  field_col_name field_name sentinel.
Arguments parallelize_features_read {num coords} env picks s_filtered
  date_range polygon field_col_name field_name sentinel
  already_occupied_threads.
Arguments Build_field {coords} field_name field_polygon.
Arguments field_name {coords} f.
Arguments field_polygon {coords} f.
Arguments Series {coords} label f.
Arguments DataFrame {coords} label rows.
Arguments pandas_len {coords} o.
Arguments item0 {coords} o.
Arguments item1 {coords} o.
Arguments index0 {coords} o.
Arguments iterrows {coords} o.
Arguments sentinel1_collection {coords} polygon start_date end_date.
Arguments sentinel2_collection {coords} polygon start_date end_date.
Arguments filter_collection {coords} sentinel polygon start_date end_date.
Arguments process_field {num coords} env picks fld start_date end_date
  sentinel already_occupied_threads.
Arguments columns {num coords} df.
Arguments column_at {num coords} df i.
Arguments cell {num coords} c r.
Arguments is_none {num coords} v.
Arguments is_str {num coords} v.
Arguments is_int {num coords} v.
Arguments is_float {num coords} v.
Arguments is_timestamp {num coords} v.
Arguments kind_of {num coords} env cells.
Arguments number {num coords} env v.
Arguments value_leb {num coords} env k a b.
Arguments rows_leb {num coords} env k0 k1 c0 c1 r1 r2.
Arguments insert_row {num coords} leb r sorted.
Arguments sort_rows {num coords} leb df.
Arguments sort_values {num coords} env c0 c1 df.
Arguments submissions {coords} fields_df fields_threads.
Arguments run_tasks {num coords} env inner i tasks start_date end_date
  sentinel.
Arguments get_features {num coords} env outer inner fields_df start_date
  end_date sentinel fields_threads.
Arguments fields_of {coords} fields_df.
Arguments label_of {coords} fields_df.
Arguments reported_dates {num coords} env start_date end_date sentinel f.
Arguments reported_pairs {num coords} env fields_df start_date end_date
  sentinel.
Arguments row_of_pair {num coords} env label start_date end_date sentinel
  p r.
Arguments row_key {num coords} label sentinel r.
Arguments optical_answers {num coords} env.

(** A table of exactly two fields: [len(fields_df) == 2] holds for it as it
    does for a single row, so [get_features] hands the whole table to one
    [process_field]. *)
Definition two_row_table {coords : Type} (fields_df : pandas_obj coords)
  : Prop :=
  exists label f1 f2, fields_df = DataFrame label [f1; f2].

(** What the split and the inner pool raise on an inner worker count that
    is zero ([len // 0]) or negative ([ThreadPoolExecutor] rejects it), and
    on an empty date range ([range] with step zero). *)
Definition budget_error (inner_workers : Z) : exn :=
  if inner_workers =? 0 then ZeroDivisionError else ValueError.

(** Identifier first, then date: the order of two keys. *)
Definition key_le (k1 k2 : string * date) : Prop :=
  String.ltb (fst k1) (fst k2) = true \/
  (fst k1 = fst k2 /\ snd k1 <= snd k2).

(** The comparison that [rows_leb] makes on two rows, read on their keys,
    and the sort of [sort_values] read on the keys. *)
Definition key_leb (k1 k2 : string * date) : bool :=
  match String.leb (fst k1) (fst k2), String.leb (fst k2) (fst k1) with
  | true, true => snd k1 <=? snd k2
  | b, _ => b
  end.

Fixpoint insert_key (k : string * date) (sorted : list (string * date))
  : list (string * date) :=
  match sorted with
  | [] => [k]
  | k' :: rest =>
      if key_leb k k' then k :: k' :: rest else k' :: insert_key k rest
  end.

Fixpoint sort_keys (ks : list (string * date)) : list (string * date) :=
  match ks with
  | [] => []
  | k :: ks' => insert_key k (sort_keys ks')
  end.

(** The key of a pair: the identifier of the field and the date. *)
Definition pair_key {coords : Type} (p : field coords * date)
  : string * date :=
  (field_name (fst p), snd p).

(** ** Sample runs *)

(** A platform with [T] workers on which every field has the acquisition
    dates [dates], every band mean is 1 and every index is 7. *)
Definition sample_platform (T : Z) (dates : list date) : Platform Z unit :=
  {| max_workers := T;
     getInfo_dates := fun _ => Ok dates;
     reduceRegion := fun _ _ _ _ =>
       Ok (PDict [("VV", PFloat 1); ("VH", PFloat 1)]);
     optical_features := fun name _ =>
       if String.eqb name "get_all_bands"
       then Ok (PDict (map (fun b => (b, PFloat 1)) optical_bands))
       else Ok (PFloat 7);
     float_of_int := fun z => z;
     float_leb := Z.leb;
     object_sortable := fun _ => false;
     object_leb := fun _ _ => true |}.

Definition field_a : field unit := Build_field "a" tt.
Definition field_b : field unit := Build_field "b" tt.
Definition field_c : field unit := Build_field "c" tt.

Definition no_picks : nat -> list nat := fun _ => [].

(** Three fields with two dates each, four workers, two of them at the
    field level, Sentinel-2; the third field task finishes first. *)
Definition sample_run : result (list (row Z unit)) :=
  get_features (sample_platform 4 [10; 20]) [2%nat; 0%nat] (fun _ => [1%nat])
    (DataFrame "crop" [field_c; field_a; field_b]) "2023-01-01" "2023-12-31"
    2 2.

Definition sample_table : list (row Z unit) :=
  Eval vm_compute in
    match sample_run with
    | Ok tbl => tbl
    | Raise _ => []
    end.

(** A platform on which the band means of a field are the number kept as
    its polygon, and a table whose identifier column is labelled like the
    first band. *)
Definition tagged_platform : Platform Z Z :=
  {| max_workers := 4;
     getInfo_dates := fun _ => Ok [10; 20];
     reduceRegion := fun _ _ _ _ =>
       Ok (PDict [("VV", PFloat 1); ("VH", PFloat 1)]);
     optical_features := fun name args =>
       if String.eqb name "get_all_bands"
       then match args with
            | [_; _; PGeometry (Polygon z)] =>
                Ok (PDict (map (fun b => (b, PFloat z)) optical_bands))
            | _ => Raise TypeError
            end
       else Ok (PFloat 7);
     float_of_int := fun z => z;
     float_leb := Z.leb;
     object_sortable := fun _ => false;
     object_leb := fun _ _ => true |}.

Definition tagged_a : field Z := Build_field "a" 3.
Definition tagged_b : field Z := Build_field "b" 2.
Definition tagged_c : field Z := Build_field "c" 1.

Definition clash_run : result (list (row Z Z)) :=
  get_features tagged_platform [] no_picks
    (DataFrame "B1" [tagged_a; tagged_b; tagged_c]) "2023-01-01" "2023-12-31"
    2 2.

Definition clash_table : list (row Z Z) :=
  Eval vm_compute in
    match clash_run with
    | Ok tbl => tbl
    | Raise _ => []
    end.

(** The rows of one field with three dates on the sample platform: four
    workers, two of them occupied, so two inner workers. *)
Definition sample_field_rows : list (row Z unit) :=
  Eval vm_compute in
    match
      parallelize_features_read (sample_platform 4 [10; 20; 30]) []
        (sentinel2_collection (Polygon tt) "2023-01-01" "2023-12-31")
        [10; 20; 30] (Polygon tt) "crop" "a" 2 2
    with
    | Ok rows => rows
    | Raise _ => []
    end.

(** A platform that has no image for the polygon numbered 0 and cannot
    read the bands of day 30. *)
Definition flaky_platform : Platform Z Z :=
  {| max_workers := 4;
     getInfo_dates := fun c =>
       match filters c with
       | filterBounds (Polygon z) :: _ =>
           if z =? 0 then Raise (EEException "no image") else Ok [10; 20]
       | _ => Raise (EEException "no bounds")
       end;
     reduceRegion := fun _ _ _ _ =>
       Ok (PDict [("VV", PFloat 1); ("VH", PFloat 1)]);
     optical_features := fun name args =>
       if String.eqb name "get_all_bands"
       then match args with
            | [_; PTimestamp d; _] =>
                if d =? 30 then Raise (EEException "timeout")
                else Ok (PDict (map (fun b => (b, PFloat 1)) optical_bands))
            | _ => Raise TypeError
            end
       else Ok (PFloat 7);
     float_of_int := fun z => z;
     float_leb := Z.leb;
     object_sortable := fun _ => false;
     object_leb := fun _ _ => true |}.

Definition tagged_none : field Z := Build_field "n" 0.

(** * Properties *)

(** ** Lists, results and completion orders *)

Section SequenceFacts.

Context {A : Type}.

Lemma sequence_map_Ok (l : list A) : sequence (map Ok l) = Ok l.
Proof. induction l as [|a l IH]; simpl; [|rewrite IH]; reflexivity. Qed.

Lemma sequence_Ok_inv (ms : list (result A)) (l : list A) :
  sequence ms = Ok l -> ms = map Ok l.
Proof.
  revert l; induction ms as [|m ms IH]; simpl; intros l H.
  - inversion H. reflexivity.
  - destruct m as [a|e]; simpl in H; [|discriminate].
    destruct (sequence ms) as [l'|e]; simpl in H; [|discriminate].
    inversion H; subst. simpl. f_equal. apply IH. reflexivity.
Qed.

Lemma sequence_Forall_fails (ms : list (result A)) :
  ms <> [] -> Forall fails ms -> fails (sequence ms).
Proof.
  intros Hne Hall. destruct ms as [|m ms]; [congruence|].
  inversion Hall as [|? ? [e He] _]; subst. exists e. reflexivity.
Qed.

Lemma sequence_Forall_fails_In (ms : list (result A)) :
  ms <> [] -> Forall fails ms ->
  exists e, sequence ms = Raise e /\ In (Raise e) ms.
Proof.
  intros Hne Hall. destruct ms as [|m ms]; [congruence|].
  inversion Hall as [|? ? [e He] _]; subst. exists e.
  split; [reflexivity | left; reflexivity].
Qed.

Lemma sequence_Forall_Raise (e : exn) (ms : list (result A)) :
  ms <> [] -> Forall (fun m => m = Raise e) ms -> sequence ms = Raise e.
Proof.
  intros Hne Hall. destruct ms as [|m ms]; [congruence|].
  inversion Hall; subst. reflexivity.
Qed.

Lemma sequence_In_fails (e : exn) (ms : list (result A)) :
  In (Raise e) ms -> fails (sequence ms).
Proof.
  induction ms as [|m ms IH]; intros Hin; [destruct Hin|].
  destruct m as [a|e']; [|exists e'; reflexivity].
  destruct Hin as [Hin|Hin]; [discriminate|].
  destruct (IH Hin) as [e' He']. exists e'. simpl. rewrite He'. reflexivity.
Qed.

Lemma sequence_Forall_Ok (ms : list (result A)) :
  Forall (fun m => exists a, m = Ok a) ms -> exists l, sequence ms = Ok l.
Proof.
  induction 1 as [|m ms [a ->] _ [l IH]]; simpl.
  - exists []. reflexivity.
  - rewrite IH. exists (a :: l). reflexivity.
Qed.

Lemma map_Forall_Ok {X : Type} (g : X -> result A) (xs : list X) :
  (forall x, In x xs -> exists a, g x = Ok a) ->
  exists l, map g xs = map Ok l.
Proof.
  induction xs as [|x xs IH]; intros H.
  - exists []. reflexivity.
  - destruct (H x (or_introl eq_refl)) as [a Ha].
    destruct IH as [l Hl]; [intros y Hy; apply H; right; exact Hy|].
    exists (a :: l). simpl. rewrite Ha, Hl. reflexivity.
Qed.

Lemma map_Ok_inj (l l' : list A) : map Ok l = map Ok l' -> l = l'.
Proof.
  revert l'; induction l as [|a l IH]; intros [|a' l'] H; simpl in H;
    try discriminate; [reflexivity|].
  inversion H. f_equal. apply IH. assumption.
Qed.

End SequenceFacts.

Section ListFacts.

Context {A : Type}.

Lemma remove_nth_length (i : nat) (l : list A) :
  (i < length l)%nat -> length (remove_nth i l) = pred (length l).
Proof.
  revert i; induction l as [|x l IH]; intros [|i] H; simpl in *; try lia.
  rewrite IH by lia. destruct l; simpl in *; lia.
Qed.

Lemma remove_nth_perm (i : nat) (l : list A) (d : A) :
  (i < length l)%nat -> Permutation l (nth i l d :: remove_nth i l).
Proof.
  revert i; induction l as [|x l IH]; intros [|i] H; simpl in *; try lia.
  - reflexivity.
  - rewrite perm_swap. constructor. apply IH. lia.
Qed.

Lemma completion_order_perm (fuel : nat) :
  forall (picks : list nat) (l : list A),
    length l = fuel -> Permutation l (completion_order fuel picks l).
Proof.
  induction fuel as [|fuel IH]; intros picks l Hl.
  - destruct l; [constructor | discriminate].
  - destruct l as [|x rest]; [discriminate|].
    cbn [completion_order].
    set (i := (hd O picks mod length (x :: rest))%nat).
    assert (Hi : (i < length (x :: rest))%nat)
      by (apply Nat.mod_upper_bound; discriminate).
    rewrite (remove_nth_perm i (x :: rest) x Hi) at 1.
    constructor. apply IH.
    rewrite remove_nth_length by exact Hi. simpl in *. lia.
Qed.

Lemma as_completed_perm (picks : list nat) (l : list A) :
  Permutation l (as_completed picks l).
Proof. apply completion_order_perm. reflexivity. Qed.

Lemma Permutation_concat (ls ls' : list (list A)) :
  Permutation ls ls' -> Permutation (concat ls) (concat ls').
Proof.
  induction 1; simpl.
  - constructor.
  - apply Permutation_app_head. assumption.
  - rewrite !app_assoc. apply Permutation_app_tail, Permutation_app_comm.
  - etransitivity; eassumption.
Qed.

End ListFacts.

Section GatherFacts.

Context {A : Type}.

Lemma gather_Ok_inv (picks : list nat) (futures : list (result (list A)))
  (rows : list A) :
  gather picks futures = Ok rows ->
  exists ls, futures = map Ok ls /\ Permutation (concat ls) rows.
Proof.
  unfold gather. intros H.
  destruct (sequence (as_completed picks futures)) as [ls'|e] eqn:E;
    simpl in H; [|discriminate].
  inversion H; subst rows; clear H.
  apply sequence_Ok_inv in E.
  pose proof (as_completed_perm picks futures) as P. rewrite E in P.
  apply Permutation_map_inv in P. destruct P as (ls & -> & P).
  exists ls. split; [reflexivity|].
  apply Permutation_concat. symmetry. exact P.
Qed.

Lemma gather_map_Ok (picks : list nat) (ls : list (list A)) :
  exists rows, gather picks (map Ok ls) = Ok rows.
Proof.
  unfold gather.
  pose proof (as_completed_perm picks (map Ok ls)) as P.
  symmetry in P. apply Permutation_map_inv in P. destruct P as (ls' & E & _).
  rewrite E, sequence_map_Ok. simpl. eauto.
Qed.

Lemma gather_Forall_fails (picks : list nat)
  (futures : list (result (list A))) :
  futures <> [] -> Forall fails futures -> fails (gather picks futures).
Proof.
  intros Hne Hall. unfold gather.
  pose proof (as_completed_perm picks futures) as P.
  destruct (sequence_Forall_fails (as_completed picks futures)) as [e He].
  - intros E. rewrite E in P. symmetry in P. apply Permutation_nil in P.
    congruence.
  - rewrite Forall_forall in *. intros m Hm. apply Hall.
    eapply Permutation_in; [symmetry; exact P | exact Hm].
  - exists e. rewrite He. reflexivity.
Qed.

Lemma gather_Forall_fails_In (picks : list nat)
  (futures : list (result (list A))) :
  futures <> [] -> Forall fails futures ->
  exists e, gather picks futures = Raise e /\ In (Raise e) futures.
Proof.
  intros Hne Hall. unfold gather.
  pose proof (as_completed_perm picks futures) as P.
  destruct (sequence_Forall_fails_In (as_completed picks futures))
    as (e & He & Hin).
  - intros E. rewrite E in P. symmetry in P. apply Permutation_nil in P.
    congruence.
  - rewrite Forall_forall in *. intros m Hm. apply Hall.
    eapply Permutation_in; [symmetry; exact P | exact Hm].
  - exists e. rewrite He. split; [reflexivity|].
    eapply Permutation_in; [symmetry; exact P | exact Hin].
Qed.

Lemma gather_Forall_Raise (e : exn) (picks : list nat)
  (futures : list (result (list A))) :
  futures <> [] -> Forall (fun m => m = Raise e) futures ->
  gather picks futures = Raise e.
Proof.
  intros Hne Hall. unfold gather.
  pose proof (as_completed_perm picks futures) as P.
  rewrite sequence_Forall_Raise with (e := e); [reflexivity| |].
  - intros E. rewrite E in P. symmetry in P. apply Permutation_nil in P.
    congruence.
  - rewrite Forall_forall in *. intros m Hm. apply Hall.
    eapply Permutation_in; [symmetry; exact P | exact Hm].
Qed.

Lemma gather_In_fails (e : exn) (picks : list nat)
  (futures : list (result (list A))) :
  In (Raise e) futures -> fails (gather picks futures).
Proof.
  intros Hin. unfold gather.
  destruct (sequence_In_fails e (as_completed picks futures)) as [e' He'].
  - eapply Permutation_in; [apply as_completed_perm | exact Hin].
  - exists e'. rewrite He'. reflexivity.
Qed.

Lemma gather_nil (picks : list nat) :
  gather picks (@nil (result (list A))) = Ok [].
Proof. reflexivity. Qed.

End GatherFacts.

(** ** The date chunks *)

Section Chunks.

Context {A : Type}.

Lemma slice_firstn_skipn (l : list A) (i c : Z) :
  0 <= i -> 0 <= c ->
  slice l i (i + c) = firstn (Z.to_nat c) (skipn (Z.to_nat i) l).
Proof.
  intros Hi Hc. unfold slice, clamp_index, len.
  destruct (i <? 0) eqn:E1; [lia|].
  destruct (i + c <? 0) eqn:E2; [lia|].
  destruct (Z_le_gt_dec i (Z.of_nat (length l))) as [Hle|Hgt].
  - rewrite (Z.min_l i) by lia.
    destruct (Z_le_gt_dec (i + c) (Z.of_nat (length l))) as [Hle'|Hgt'].
    + rewrite Z.min_l by lia. f_equal. lia.
    + rewrite Z.min_r by lia.
      rewrite !firstn_all2; try reflexivity; rewrite length_skipn; lia.
  - rewrite !Z.min_r by lia.
    rewrite skipn_all2 by lia. rewrite skipn_all2 by lia.
    rewrite !firstn_nil. reflexivity.
Qed.

Lemma map_slices_chunks_of (l : list A) (c : Z) (m : nat) :
  0 < c ->
  map (fun i => slice l i (i + c))
      (map (fun j => 0 + Z.of_nat j * c) (seq 0 m))
  = chunks_of (Z.to_nat c) m l.
Proof.
  intros Hc. rewrite map_map.
  transitivity
    (map (fun j => firstn (Z.to_nat c) (skipn (j * Z.to_nat c) l)) (seq 0 m)).
  { apply map_ext. intros j. rewrite slice_firstn_skipn by lia.
    f_equal. f_equal. lia. }
  revert l. induction m as [|m IH]; intros l; [reflexivity|].
  cbn [seq map chunks_of]. f_equal.
  rewrite <- seq_shift, map_map, <- IH.
  apply map_ext. intros j. rewrite skipn_skipn. f_equal. f_equal. lia.
Qed.

Lemma chunks_of_length (c m : nat) (l : list A) :
  length (chunks_of c m l) = m.
Proof. revert l; induction m; intros; simpl; [|rewrite IHm]; reflexivity. Qed.

Lemma chunks_of_concat (c m : nat) (l : list A) :
  (length l <= m * c)%nat -> concat (chunks_of c m l) = l.
Proof.
  revert l; induction m as [|m IH]; intros l H; simpl in *.
  - destruct l; [reflexivity | simpl in H; lia].
  - rewrite IH by (rewrite length_skipn; lia). apply firstn_skipn.
Qed.

(** Every chunk but the last is full, and the last one is not empty. *)
Lemma chunks_of_sizes (c m : nat) (l : list A) :
  (m * c < length l + c)%nat -> (length l <= m * c)%nat -> (0 < length l)%nat ->
  exists init last,
    chunks_of c m l = init ++ [last] /\
    Forall (fun ch => length ch = c) init /\
    (1 <= length last <= c)%nat.
Proof.
  revert l; induction m as [|m IH]; intros l Hlo Hhi Hpos; simpl in *; [lia|].
  destruct (Nat.le_gt_cases (length l) c) as [Hle|Hgt].
  - assert (m = O) by nia. subst m. simpl.
    exists [], (firstn c l). repeat split; simpl; auto;
      rewrite length_firstn; lia.
  - destruct (IH (skipn c l)) as (init & last & E & Hall & Hlast);
      try (rewrite length_skipn; lia).
    exists (firstn c l :: init), last. rewrite E. repeat split; try tauto.
    constructor; [rewrite length_firstn; lia | exact Hall].
Qed.

Lemma split_dates_Ok (dates : list A) (k : Z) :
  1 <= k <= len dates ->
  split_dates dates k
  = Ok (chunks_of (Z.to_nat (len dates / k))
          (Z.to_nat ((len dates - 1) / (len dates / k) + 1)) dates).
Proof.
  intros Hk. unfold split_dates, floordiv, py_range.
  assert (Hc : 1 <= len dates / k)
    by (apply Z.div_le_lower_bound; lia).
  destruct (k =? 0) eqn:E0; [lia|]. cbn [bind].
  destruct (len dates / k =? 0) eqn:E1; [lia|]. cbn [bind].
  destruct (0 <? len dates / k) eqn:E2; [|lia].
  destruct (0 <? len dates) eqn:E3; [|lia].
  rewrite Z.sub_0_r. rewrite map_slices_chunks_of by lia. reflexivity.
Qed.

(** A run of [split_dates] that the inner pool accepts cuts the dates into
    consecutive pieces: whenever the split returns and the pool size is
    positive, the chunks concatenate to the date range. *)
Lemma split_dates_concat (dates : list A) (k : Z) (chunks : list (list A)) :
  split_dates dates k = Ok chunks -> 1 <= k -> concat chunks = dates.
Proof.
  intros H Hk. unfold split_dates, floordiv, py_range in H.
  destruct (k =? 0) eqn:E0; [lia|]. cbn [bind] in H.
  destruct (len dates / k =? 0) eqn:E1; [discriminate|]. cbn [bind] in H.
  assert (Hc : 0 < len dates / k).
  { assert (0 <= len dates / k)
      by (apply Z.div_pos; unfold len; lia). lia. }
  destruct (0 <? len dates / k) eqn:E2; [|lia].
  assert (Hn : 0 < len dates).
  { destruct (Z.eq_dec (len dates) 0) as [Z0|]; [|unfold len in *; lia].
    rewrite Z0 in Hc. rewrite Z.div_0_l in Hc; lia. }
  destruct (0 <? len dates) eqn:E3; [|lia].
  rewrite Z.sub_0_r in H. rewrite map_slices_chunks_of in H by lia.
  inversion H; subst chunks; clear H.
  apply chunks_of_concat.
  set (c := len dates / k) in *.
  assert (len dates - 1 < c * ((len dates - 1) / c + 1)).
  { pose proof (Z.mul_succ_div_gt (len dates - 1) c Hc). lia. }
  assert (0 <= (len dates - 1) / c) by (apply Z.div_pos; lia).
  unfold len in *. nia.
Qed.

End Chunks.

(** C4, as the code has it.  For [1 <= k <= n] the split returns the dates
    cut into consecutive chunks of [n // k] dates, the last one holding what
    is left (at least one date, at most [n // k]).  The chunks concatenate to
    the date range, so their sizes sum to [n] and no date is in two of them.
    There are at least [k] and at most [n] chunks, and exactly [k] of equal
    size when [k] divides [n]. *)
Theorem split_dates_chunks (A : Type) (dates : list A) (k : Z) :
  1 <= k <= len dates ->
  exists init last,
    split_dates dates k = Ok (init ++ [last]) /\
    concat (init ++ [last]) = dates /\
    Forall (fun ch => len ch = len dates / k) init /\
    1 <= len last <= len dates / k /\
    k <= len (init ++ [last]) <= len dates /\
    (len dates mod k = 0 ->
     len (init ++ [last]) = k /\ len last = len dates / k).
Proof.
  intros Hk.
  set (n := len dates) in *. set (c := n / k).
  assert (Hc : 1 <= c) by (apply Z.div_le_lower_bound; lia).
  assert (Hck : c * k <= n) by (rewrite Z.mul_comm; apply Z.mul_div_le; lia).
  set (q := (n - 1) / c).
  assert (Hq0 : 0 <= q) by (apply Z.div_pos; lia).
  assert (Hq1 : c * q <= n - 1) by (apply Z.mul_div_le; lia).
  assert (Hq2 : n - 1 < c * (q + 1))
    by (pose proof (Z.mul_succ_div_gt (n - 1) c); unfold q; lia).
  pose proof (split_dates_Ok dates k Hk) as E. fold n c q in E.
  destruct (chunks_of_sizes (Z.to_nat c) (Z.to_nat (q + 1)) dates)
    as (init & last & Ech & Hinit & Hlast).
  { unfold n, len in *. nia. }
  { unfold n, len in *. nia. }
  { unfold n, len in *. lia. }
  exists init, last. rewrite <- Ech.
  assert (Hlen : len (chunks_of (Z.to_nat c) (Z.to_nat (q + 1)) dates) = q + 1)
    by (unfold len; rewrite chunks_of_length; lia).
  split; [exact E|]. split.
  { apply chunks_of_concat. unfold n, len in *. nia. }
  split.
  { eapply Forall_impl; [|exact Hinit]. intros ch H. unfold len.
    rewrite H. lia. }
  split; [unfold len; lia|]. split.
  { rewrite Hlen. split; [|nia].
    assert (k - 1 <= q); [|lia].
    apply Z.div_le_lower_bound; nia. }
  intros Hmod.
  assert (Hn : n = c * k).
  { pose proof (Z.div_mod n k). unfold c. rewrite Z.mul_comm. lia. }
  assert (Hq : q = k - 1) by nia.
  split; [lia|].
  assert (Hsum : length (concat (init ++ [last])) = length dates).
  { rewrite <- Ech, chunks_of_concat; [reflexivity|].
    unfold n, len in *. nia. }
  assert (Hcount : len init = q).
  { apply (f_equal (@length _)) in Ech.
    rewrite chunks_of_length, length_app in Ech. simpl in Ech.
    unfold len. lia. }
  rewrite concat_app, length_app in Hsum. simpl in Hsum.
  rewrite app_nil_r in Hsum.
  assert (Hfull : length (concat init) = (length init * Z.to_nat c)%nat).
  { clear - Hinit. induction Hinit as [|ch init' Hch _ IH]; [reflexivity|].
    simpl. rewrite length_app, IH, Hch. reflexivity. }
  unfold n, len in *. nia.
Qed.

(** The instance of [split_dates_chunks] for five dates and two workers. *)
Lemma split_dates_chunks_witness :
  exists init last,
    split_dates [1; 2; 3; 4; 5] 2 = Ok (init ++ [last]) /\
    concat (init ++ [last]) = [1; 2; 3; 4; 5] /\
    Forall (fun ch => len ch = len [1; 2; 3; 4; 5] / 2) init /\
    1 <= len last <= len [1; 2; 3; 4; 5] / 2 /\
    2 <= len (init ++ [last]) <= len [1; 2; 3; 4; 5] /\
    (len [1; 2; 3; 4; 5] mod 2 = 0 ->
     len (init ++ [last]) = 2 /\ len last = len [1; 2; 3; 4; 5] / 2).
Proof.
  apply (split_dates_chunks Z [1; 2; 3; 4; 5] 2). vm_compute.
  split; discriminate.
Defined.

(** C4 as stated fails: seven dates and two workers give three chunks, not
    two, and their sizes 3, 3, 1 differ by two. *)
Lemma split_dates_not_even :
  split_dates [1; 2; 3; 4; 5; 6; 7] 2 = Ok [[1; 2; 3]; [4; 5; 6]; [7]] /\
  ~ (exists chunks,
       split_dates [1; 2; 3; 4; 5; 6; 7] 2 = Ok chunks /\ len chunks = 2) /\
  ~ (exists chunks,
       split_dates [1; 2; 3; 4; 5; 6; 7] 2 = Ok chunks /\
       forall c1 c2, In c1 chunks -> In c2 chunks -> len c1 - len c2 <= 1).
Proof.
  assert (E' : split_dates [1; 2; 3; 4; 5; 6; 7] 2
               = Ok [[1; 2; 3]; [4; 5; 6]; [7]]) by reflexivity.
  split; [exact E'|]. split.
  - intros (chunks & E & Hlen).
    rewrite E' in E. inversion E; subst chunks. discriminate Hlen.
  - intros (chunks & E & Hbal).
    rewrite E' in E. inversion E; subst chunks.
    specialize (Hbal [1; 2; 3] [7]). simpl in Hbal.
    assert (len [1; 2; 3] - len [7] <= 1) by (apply Hbal; auto).
    vm_compute in H. apply H. reflexivity.
Qed.

(** ** The aggregation *)

Section Properties.

Variables num coords : Type.
Variable env : Platform num coords.

(** *** What [get_features] submits *)

Lemma submissions_rows (fields_df : pandas_obj coords) (fields_threads : Z) :
  ~ two_row_table fields_df ->
  submissions fields_df fields_threads
  = Ok (map (fun f => (Series (label_of fields_df) f, fields_threads))
          (fields_of fields_df)).
Proof.
  intros Hnot. destruct fields_df as [label f | label rows]; [reflexivity|].
  unfold submissions. cbn [pandas_len iterrows fields_of label_of bind].
  destruct (len rows =? 2) eqn:E.
  - exfalso. apply Hnot. apply Z.eqb_eq in E. unfold len in E.
    destruct rows as [|f1 [|f2 [|f3 rows]]]; simpl in E; try lia.
    exists label, f1, f2. reflexivity.
  - rewrite map_map. reflexivity.
Qed.

Lemma submissions_two_rows (label : string) (f1 f2 : field coords)
  (fields_threads : Z) :
  submissions (DataFrame label [f1; f2]) fields_threads
  = Ok [(DataFrame label [f1; f2], fields_threads)].
Proof. reflexivity. Qed.

Lemma run_tasks_Forall (P : result (list (row num coords)) -> Prop)
  (inner : nat -> list nat) (start_date end_date : string) (sentinel : Z)
  (tasks : list (pandas_obj coords * Z)) :
  (forall picks t, In t tasks ->
     P (process_field env picks (fst t) start_date end_date sentinel (snd t))) ->
  forall i,
    Forall P (run_tasks env inner i tasks start_date end_date sentinel).
Proof.
  induction tasks as [|[fld occ] tasks IH]; intros H i; simpl; constructor.
  - apply (H (inner i) (fld, occ)). left. reflexivity.
  - apply IH. intros picks t Ht. apply H. right. exact Ht.
Qed.

Lemma run_tasks_nonempty (inner : nat -> list nat) (i : nat)
  (tasks : list (pandas_obj coords * Z)) (start_date end_date : string)
  (sentinel : Z) :
  tasks <> [] ->
  run_tasks env inner i tasks start_date end_date sentinel <> [].
Proof. destruct tasks as [|[fld occ] tasks]; simpl; congruence. Qed.

Lemma submissions_occupied (fields_df : pandas_obj coords)
  (fields_threads : Z) (tasks : list (pandas_obj coords * Z)) :
  submissions fields_df fields_threads = Ok tasks ->
  Forall (fun t => snd t = fields_threads) tasks.
Proof.
  unfold submissions. intros H.
  destruct (pandas_len fields_df =? 2).
  - inversion H; subst. repeat constructor.
  - destruct (iterrows fields_df) as [rows|e]; simpl in H; [|discriminate].
    inversion H; subst. apply Forall_forall. intros t Ht.
    apply in_map_iff in Ht. destruct Ht as (fld & <- & _). reflexivity.
Qed.

(** *** Failures of a field task *)

Lemma process_field_Series (picks : list nat) (label : string)
  (f : field coords) (start_date end_date : string) (sentinel occupied : Z) :
  process_field env picks (Series label f) start_date end_date sentinel
    occupied
  = match filter_collection sentinel (Polygon (field_polygon f))
            start_date end_date with
    | None => Raise UnboundLocalError
    | Some s_filtered =>
        date_range <- getInfo_dates env s_filtered ;;
        parallelize_features_read env picks s_filtered date_range
          (Polygon (field_polygon f)) label (field_name f) sentinel occupied
    end.
Proof.
  unfold process_field. cbn [item0 item1 index0 bind].
  destruct (filter_collection _ _ _ _); reflexivity.
Qed.

Lemma process_field_DataFrame (picks : list nat) (label : string)
  (rows : list (field coords)) (start_date end_date : string)
  (sentinel occupied : Z) :
  process_field env picks (DataFrame label rows) start_date end_date sentinel
    occupied
  = Raise KeyError.
Proof. reflexivity. Qed.

(** *** The worker budget *)

(** What a field task does with an inner worker budget of [budget]: it
    splits the dates for [budget] workers, opens a pool of [budget] workers
    and gathers the rows of the chunks.  Stated for the tasks that
    [run_tasks] starts, given what each was submitted with. *)
Lemma run_tasks_budget (inner : nat -> list nat)
  (tasks : list (pandas_obj coords * Z)) (start_date end_date : string)
  (sentinel budget : Z) :
  Forall (fun t => max_workers env - snd t = budget) tasks ->
  forall i,
    Forall2
      (fun t future =>
         forall label f s_filtered dates,
           fst t = Series label f ->
           filter_collection sentinel (Polygon (field_polygon f)) start_date
             end_date = Some s_filtered ->
           getInfo_dates env s_filtered = Ok dates ->
           exists picks,
             future
             = (date_chunks <- split_dates dates budget ;;
                _ <- ThreadPoolExecutor budget ;;
                gather picks
                  (map (fun chunk =>
                          process_chunk env s_filtered chunk
                            (Polygon (field_polygon f)) label (field_name f)
                            sentinel)
                       date_chunks)))
      tasks (run_tasks env inner i tasks start_date end_date sentinel).
Proof.
  induction 1 as [|[fld occ] tasks Hocc _ IH]; intros i; simpl;
    constructor; [|apply IH].
  intros label f s_filtered dates Hfld Hs Hd. simpl in Hfld, Hocc.
  subst fld budget. exists (inner i).
  rewrite process_field_Series, Hs, Hd. reflexivity.
Qed.


Lemma parallelize_exhausted (picks : list nat)
  (s_filtered : ImageCollection coords) (dates : list date)
  (polygon : Geometry coords) (col name : string) (sentinel occupied : Z) :
  max_workers env - occupied <= 0 ->
  parallelize_features_read env picks s_filtered dates polygon col name
    sentinel occupied
  = Raise (budget_error (max_workers env - occupied)).
Proof.
  intros Hk. unfold parallelize_features_read, split_dates, floordiv,
    py_range, budget_error, ThreadPoolExecutor.
  set (k := max_workers env - occupied) in *.
  destruct (k =? 0) eqn:E0; [reflexivity|]. cbn [bind].
  destruct (len dates / k =? 0); [reflexivity|]. cbn [bind].
  destruct (k <=? 0) eqn:E1; [reflexivity|lia].
Qed.

Lemma parallelize_few_dates (picks : list nat)
  (s_filtered : ImageCollection coords) (dates : list date)
  (polygon : Geometry coords) (col name : string) (sentinel occupied : Z) :
  len dates < max_workers env - occupied ->
  parallelize_features_read env picks s_filtered dates polygon col name
    sentinel occupied
  = Raise ValueError.
Proof.
  intros Hk. unfold parallelize_features_read, split_dates, floordiv,
    py_range.
  set (k := max_workers env - occupied) in *.
  assert (Hn : 0 <= len dates) by (unfold len; lia).
  destruct (k =? 0) eqn:E0; [lia|]. cbn [bind].
  rewrite Z.div_small by lia. reflexivity.
Qed.

Lemma parallelize_no_dates (picks : list nat)
  (s_filtered : ImageCollection coords) (polygon : Geometry coords)
  (col name : string) (sentinel occupied : Z) :
  parallelize_features_read env picks s_filtered [] polygon col name
    sentinel occupied
  = Raise (budget_error (max_workers env - occupied)).
Proof.
  unfold parallelize_features_read, split_dates, floordiv, py_range,
    budget_error.
  destruct (max_workers env - occupied =? 0); reflexivity.
Qed.

Lemma process_field_exhausted (picks : list nat) (fld : pandas_obj coords)
  (start_date end_date : string) (sentinel occupied : Z) :
  max_workers env <= occupied ->
  fails (process_field env picks fld start_date end_date sentinel occupied).
Proof.
  intros Hk. destruct fld as [label f | label rows].
  - rewrite process_field_Series.
    destruct (filter_collection _ _ _ _) as [s_filtered|];
      [|eexists; reflexivity].
    destruct (getInfo_dates env s_filtered) as [dates|e];
      [|eexists; reflexivity].
    cbn [bind]. rewrite parallelize_exhausted by lia. eexists. reflexivity.
  - eexists. reflexivity.
Qed.

Lemma get_features_no_task_succeeds (outer : list nat)
  (inner : nat -> list nat) (fields_df : pandas_obj coords)
  (start_date end_date : string) (sentinel fields_threads : Z) :
  (forall picks fld,
     fails (process_field env picks fld start_date end_date sentinel
              fields_threads)) ->
  fails (get_features env outer inner fields_df start_date end_date sentinel
           fields_threads).
Proof.
  intros Hall. unfold get_features.
  destruct (ThreadPoolExecutor fields_threads) as [[]|e];
    [|eexists; reflexivity].
  cbn [bind].
  pose proof (submissions_occupied fields_df fields_threads) as Hocc.
  destruct (submissions fields_df fields_threads) as [tasks|e];
    [|eexists; reflexivity].
  cbn [bind]. specialize (Hocc tasks eq_refl).
  destruct tasks as [|t tasks]; [eexists; reflexivity|].
  destruct (gather_Forall_fails outer
              (run_tasks env inner 0 (t :: tasks) start_date end_date sentinel))
    as [e He].
  - apply run_tasks_nonempty. discriminate.
  - apply run_tasks_Forall. intros picks t' Ht'.
    rewrite Forall_forall in Hocc. rewrite (Hocc t' Ht'). apply Hall.
  - rewrite He. eexists. reflexivity.
Qed.

Lemma get_features_all_Raise (e : exn) (outer : list nat)
  (inner : nat -> list nat) (fields_df : pandas_obj coords)
  (start_date end_date : string) (sentinel fields_threads : Z) :
  1 <= fields_threads ->
  fields_of fields_df <> [] ->
  ~ two_row_table fields_df ->
  (forall picks f,
     In f (fields_of fields_df) ->
     process_field env picks (Series (label_of fields_df) f) start_date
       end_date sentinel fields_threads = Raise e) ->
  get_features env outer inner fields_df start_date end_date sentinel
    fields_threads = Raise e.
Proof.
  intros Hft Hne Hnot Hall. unfold get_features, ThreadPoolExecutor.
  destruct (fields_threads <=? 0) eqn:E; [lia|]. cbn [bind].
  rewrite submissions_rows by exact Hnot. cbn [bind].
  rewrite gather_Forall_Raise with (e := e); [reflexivity| |].
  - apply run_tasks_nonempty. destruct (fields_of fields_df); simpl; congruence.
  - apply run_tasks_Forall. intros picks t Ht.
    apply in_map_iff in Ht. destruct Ht as (f & <- & Hf). simpl.
    apply Hall. exact Hf.
Qed.

(** *** An empty table *)

(** C8, as the code has it.  On a table without rows [get_features] fails
    with an exception of Python's own: the outer pool rejects a worker count
    below one with [ValueError]; otherwise no task is submitted, the result
    table has no columns, and reading its first column label for the sort is
    an [IndexError]. *)
Theorem empty_table_fails (outer : list nat) (inner : nat -> list nat)
  (label : string) (start_date end_date : string)
  (sentinel fields_threads : Z) :
  get_features env outer inner (DataFrame label []) start_date end_date
    sentinel fields_threads
  = Raise (if fields_threads <=? 0 then ValueError else IndexError).
Proof.
  unfold get_features, ThreadPoolExecutor.
  destruct (fields_threads <=? 0); reflexivity.
Qed.

(** *** The radar branch *)

Lemma process_chunk_radar (s_filtered : ImageCollection coords) (d : date)
  (rest : list date) (polygon : Geometry coords) (col name : string) :
  process_chunk env s_filtered (d :: rest) polygon col name 1
  = Raise AttributeError.
Proof. reflexivity. Qed.

(** C9.  The calls that [process_chunk] makes for Sentinel-1 do not fit
    [radar_features]: the module defines no [get_all_polarizations], and the
    index functions, which take an image collection, a date and a polygon,
    reject the one or two arguments they are given.  So a non-empty chunk
    fails at its first date, with the [AttributeError] of the missing
    function, and yields no row. *)
Theorem radar_calls_mismatch :
  lookup_def "get_all_polarizations" radar_features_defs = None /\
  (forall means type,
     radar_features env "calculate_simple_index" [means; PStr type]
     = Raise TypeError) /\
  (forall means,
     radar_features env "calculate_normalized_difference_index" [means]
     = Raise TypeError) /\
  (forall means,
     radar_features env "calculate_radar_vegetation_index" [means]
     = Raise TypeError) /\
  (forall s_filtered d rest polygon col name,
     process_chunk env s_filtered (d :: rest) polygon col name 1
     = Raise AttributeError).
Proof.
  split; [reflexivity|].
  split; [intros means type; reflexivity|].
  split; [intros means; reflexivity|].
  split; [intros means; reflexivity|].
  intros s_filtered d rest polygon col name. apply process_chunk_radar.
Qed.

(** *** A satellite number other than 1 and 2 *)

Lemma process_chunk_unbound (sentinel : Z)
  (s_filtered : ImageCollection coords) (d : date) (rest : list date)
  (polygon : Geometry coords) (col name : string) :
  sentinel <> 1 -> sentinel <> 2 ->
  process_chunk env s_filtered (d :: rest) polygon col name sentinel
  = Raise UnboundLocalError.
Proof.
  intros H1 H2. unfold process_chunk. cbn [for_each]. unfold chunk_step at 1.
  destruct (sentinel =? 1) eqn:E1; [lia|].
  destruct (sentinel =? 2) eqn:E2; [lia|]. reflexivity.
Qed.

Lemma process_field_unbound (sentinel : Z) (picks : list nat)
  (label : string) (f : field coords) (start_date end_date : string)
  (occupied : Z) :
  sentinel <> 1 -> sentinel <> 2 ->
  process_field env picks (Series label f) start_date end_date sentinel
    occupied
  = Raise UnboundLocalError.
Proof.
  intros H1 H2. rewrite process_field_Series. unfold filter_collection.
  destruct (sentinel =? 1) eqn:E1; [lia|].
  destruct (sentinel =? 2) eqn:E2; [lia|]. reflexivity.
Qed.

(** C10.  With a satellite number that is neither 1 nor 2, [process_field]
    on a field reads its local [s_filtered] before any assignment, and
    [process_chunk] on a non-empty chunk its local [df_acquisition]: both
    raise [UnboundLocalError].  [get_features] leads there: on a single
    field, or on a table of fields that is not taken for one, it raises the
    same error. *)
Theorem unbound_sentinel (sentinel : Z) :
  sentinel <> 1 -> sentinel <> 2 ->
  (forall picks label f start_date end_date occupied,
     process_field env picks (Series label f) start_date end_date sentinel
       occupied = Raise UnboundLocalError) /\
  (forall s_filtered d rest polygon col name,
     process_chunk env s_filtered (d :: rest) polygon col name sentinel
     = Raise UnboundLocalError) /\
  (forall outer inner fields_df start_date end_date fields_threads,
     1 <= fields_threads ->
     fields_of fields_df <> [] ->
     ~ two_row_table fields_df ->
     get_features env outer inner fields_df start_date end_date sentinel
       fields_threads = Raise UnboundLocalError).
Proof.
  intros H1 H2. split; [|split].
  - intros. apply process_field_unbound; assumption.
  - intros. apply process_chunk_unbound; assumption.
  - intros outer inner fields_df start_date end_date fields_threads Hft Hne Hnot.
    apply get_features_all_Raise; try assumption.
    intros picks f _. apply process_field_unbound; assumption.
Qed.

(** *** A field without acquisitions *)

(** C6 on the code.  For a field with no acquisition date the split computes
    a chunk size of zero and [range] rejects it as a step: the field task
    raises [ValueError] (or [ZeroDivisionError], when the inner worker
    count is zero) instead of contributing no rows, and [get_features] on
    that field raises it too. *)
Theorem zero_dates_fail (label : string) (f : field coords)
  (start_date end_date : string) (sentinel occupied : Z)
  (s_filtered : ImageCollection coords) :
  filter_collection sentinel (Polygon (field_polygon f)) start_date end_date
  = Some s_filtered ->
  getInfo_dates env s_filtered = Ok [] ->
  (forall picks,
     process_field env picks (Series label f) start_date end_date sentinel
       occupied
     = Raise (budget_error (max_workers env - occupied))) /\
  (1 <= occupied ->
   forall outer inner,
     get_features env outer inner (Series label f) start_date end_date
       sentinel occupied
     = Raise (budget_error (max_workers env - occupied))).
Proof.
  intros Hs Hd.
  assert (Hpf : forall picks,
             process_field env picks (Series label f) start_date end_date
               sentinel occupied
             = Raise (budget_error (max_workers env - occupied))).
  { intros picks. rewrite process_field_Series, Hs, Hd. cbn [bind].
    apply parallelize_no_dates. }
  split; [exact Hpf|].
  intros Hocc outer inner. apply get_features_all_Raise.
  - exact Hocc.
  - discriminate.
  - intros (l & f1 & f2 & E). discriminate E.
  - intros picks f' [<-|[]]. apply Hpf.
Qed.

(** *** A table of two fields *)

Lemma get_features_two_rows (outer : list nat) (inner : nat -> list nat)
  (label : string) (f1 f2 : field coords) (start_date end_date : string)
  (sentinel fields_threads : Z) :
  1 <= fields_threads ->
  get_features env outer inner (DataFrame label [f1; f2]) start_date end_date
    sentinel fields_threads
  = Raise KeyError.
Proof.
  intros Hft. unfold get_features, ThreadPoolExecutor.
  destruct (fields_threads <=? 0) eqn:E; [lia|]. cbn [bind].
  rewrite submissions_two_rows. cbn [bind run_tasks].
  rewrite process_field_DataFrame.
  rewrite gather_Forall_Raise with (e := KeyError); [reflexivity| |].
  - discriminate.
  - repeat constructor.
Qed.

Lemma two_row_table_dec (fields_df : pandas_obj coords) :
  two_row_table fields_df \/ ~ two_row_table fields_df.
Proof.
  destruct fields_df as [label f | label [|f1 [|f2 [|f3 rows]]]];
    try (right; intros (l & g1 & g2 & E); discriminate E).
  left. exists label, f1, f2. reflexivity.
Qed.

Lemma run_tasks_In_inv (inner : nat -> list nat) (i : nat)
  (tasks : list (pandas_obj coords * Z)) (start_date end_date : string)
  (sentinel : Z) (m : result (list (row num coords))) :
  In m (run_tasks env inner i tasks start_date end_date sentinel) ->
  exists picks fld occupied,
    In (fld, occupied) tasks /\
    m = process_field env picks fld start_date end_date sentinel occupied.
Proof.
  revert i; induction tasks as [|[fld occ] tasks IH]; intros i H;
    simpl in H; [destruct H|].
  destruct H as [<- | H].
  - exists (inner i), fld, occ. split; [left; reflexivity | reflexivity].
  - destruct (IH _ H) as (picks & fld' & occ' & Hin & ->).
    exists picks, fld', occ'. split; [right; exact Hin | reflexivity].
Qed.

(** *** An exhausted budget *)

(** C5, as the code has it.  With [fields_threads >= T] the call to
    [get_features] fails under every order of completion, and the exception
    is the one of the first check the call runs into; the budget itself is
    never checked.  The outer pool rejects [fields_threads <= 0] with
    [ValueError].  Otherwise an empty table gives [IndexError], a table of
    two fields [KeyError], a satellite other than 1 and 2
    [UnboundLocalError].  Otherwise the call raises the exception of a
    field task: the one of the date query of a field, if that query fails,
    else [ZeroDivisionError] from [len(date_range) // 0] when
    [fields_threads = T], and [ValueError] from the split or the inner pool
    when [fields_threads > T]. *)
Theorem budget_exhausted_fails (outer : list nat) (inner : nat -> list nat)
  (fields_df : pandas_obj coords) (start_date end_date : string)
  (sentinel fields_threads : Z) :
  max_workers env <= fields_threads ->
  exists e,
    get_features env outer inner fields_df start_date end_date sentinel
      fields_threads = Raise e /\
    (fields_threads <= 0 -> e = ValueError) /\
    (1 <= fields_threads -> fields_of fields_df = [] -> e = IndexError) /\
    (1 <= fields_threads -> two_row_table fields_df -> e = KeyError) /\
    (1 <= fields_threads -> fields_of fields_df <> [] ->
     ~ two_row_table fields_df -> sentinel <> 1 -> sentinel <> 2 ->
     e = UnboundLocalError) /\
    (1 <= fields_threads -> fields_of fields_df <> [] ->
     ~ two_row_table fields_df -> sentinel = 1 \/ sentinel = 2 ->
     (exists f s_filtered,
        In f (fields_of fields_df) /\
        filter_collection sentinel (Polygon (field_polygon f)) start_date
          end_date = Some s_filtered /\
        getInfo_dates env s_filtered = Raise e) \/
     (fields_threads = max_workers env /\ e = ZeroDivisionError) \/
     (max_workers env < fields_threads /\ e = ValueError)).
Proof.
  intros Hk.
  destruct (Z_le_gt_dec fields_threads 0) as [Hft|Hft].
  { exists ValueError. split.
    - unfold get_features, ThreadPoolExecutor.
      destruct (fields_threads <=? 0) eqn:E; [reflexivity|lia].
    - repeat split; intros; try lia; reflexivity. }
  assert (Hft' : 1 <= fields_threads) by lia.
  destruct (two_row_table_dec fields_df) as [Htwo|Hnot].
  { exists KeyError. split.
    - destruct Htwo as (label & f1 & f2 & ->).
      apply get_features_two_rows. exact Hft'.
    - split; [intros; lia|]. split.
      { intros _ Hnil. destruct Htwo as (label & f1 & f2 & ->).
        discriminate Hnil. }
      split; [reflexivity|].
      split; intros; contradiction. }
  assert (Hcase : fields_of fields_df = [] \/ fields_of fields_df <> []).
  { destruct (fields_of fields_df); [left; reflexivity | right; discriminate]. }
  destruct Hcase as [Ef | Hne].
  { exists IndexError. split.
    - unfold get_features, ThreadPoolExecutor.
      destruct (fields_threads <=? 0) eqn:E; [lia|]. cbn [bind].
      rewrite submissions_rows by exact Hnot. rewrite Ef. reflexivity.
    - split; [intros; lia|]. split; [reflexivity|].
      split; [intros; contradiction|].
      split; intros; congruence. }
  assert (Hdec : (sentinel = 1 \/ sentinel = 2) \/
                 (sentinel <> 1 /\ sentinel <> 2)) by lia.
  destruct Hdec as [Hs | [H1 H2]].
  2: { exists UnboundLocalError. split.
       - apply get_features_all_Raise; try assumption.
         intros picks f _. apply process_field_unbound; assumption.
       - split; [intros; lia|]. split; [intros; congruence|].
         split; [intros; contradiction|]. split; [reflexivity|].
         intros _ _ _ [?|?]; contradiction. }
  set (tasks := map (fun f => (Series (label_of fields_df) f,
                               fields_threads))
                    (fields_of fields_df)).
  assert (Hfail : forall picks f e,
             process_field env picks (Series (label_of fields_df) f)
               start_date end_date sentinel fields_threads = Raise e ->
             (exists s_filtered,
                filter_collection sentinel (Polygon (field_polygon f))
                  start_date end_date = Some s_filtered /\
                getInfo_dates env s_filtered = Raise e) \/
             e = budget_error (max_workers env - fields_threads)).
  { intros picks f e He. rewrite process_field_Series in He.
    destruct (filter_collection sentinel (Polygon (field_polygon f))
                start_date end_date) as [s_filtered|] eqn:Efc.
    - destruct (getInfo_dates env s_filtered) as [dates|e'] eqn:Ed;
        cbn [bind] in He.
      + rewrite parallelize_exhausted in He by lia. right. congruence.
      + left. exists s_filtered. split; [reflexivity|congruence].
    - unfold filter_collection in Efc.
      destruct Hs as [-> | ->]; discriminate Efc. }
  assert (Hall : Forall fails
             (run_tasks env inner 0 tasks start_date end_date sentinel)).
  { apply run_tasks_Forall. intros picks t Ht.
    apply in_map_iff in Ht. destruct Ht as (f & <- & Hf). simpl.
    apply process_field_exhausted. exact Hk. }
  destruct (gather_Forall_fails_In outer
              (run_tasks env inner 0 tasks start_date end_date sentinel))
    as (e & He & Hin).
  { apply run_tasks_nonempty. unfold tasks.
    destruct (fields_of fields_df); [congruence | discriminate]. }
  { exact Hall. }
  exists e. split.
  { unfold get_features, ThreadPoolExecutor.
    destruct (fields_threads <=? 0) eqn:E; [lia|]. cbn [bind].
    rewrite submissions_rows by exact Hnot. cbn [bind].
    fold tasks. rewrite He. reflexivity. }
  split; [intros; lia|]. split; [intros; congruence|].
  split; [intros; contradiction|].
  split; [intros _ _ _ Hn1 Hn2; destruct Hs; contradiction|].
  intros _ _ _ _.
  apply run_tasks_In_inv in Hin.
  destruct Hin as (picks & fld & occ & Ht & Hp).
  apply in_map_iff in Ht. destruct Ht as (f & Et & Hf).
  inversion Et; subst fld occ. symmetry in Hp.
  destruct (Hfail picks f e Hp) as [(s_filtered & Hfc & Hd) | Hb].
  - left. exists f, s_filtered. repeat split; assumption.
  - right. unfold budget_error in Hb.
    destruct (max_workers env - fields_threads =? 0) eqn:E0.
    + left. split; [lia | exact Hb].
    + right. split; [lia | exact Hb].
Qed.

(** *** Rows of a chunk *)

Section ChunkRows.

Variable s_filtered : ImageCollection coords.
Variable polygon : Geometry coords.
Variables col name : string.
Variable sentinel : Z.

Let step := chunk_step env s_filtered polygon col name sentinel.

(** [r] is the row of date [d]. *)
Let single (d : date) (r : row num coords) : Prop :=
  process_chunk env s_filtered [d] polygon col name sentinel = Ok [r].

Lemma chunk_step_Ok (acc : list (row num coords))
  (prev : option (row num coords)) (d : date)
  (st : list (row num coords) * option (row num coords)) :
  step (acc, prev) d = Ok st ->
  sentinel = 1 \/ sentinel = 2 \/ prev = None ->
  exists r, st = (acc ++ [r], Some r) /\ single d r /\
            (sentinel = 1 \/ sentinel = 2).
Proof.
  unfold single, process_chunk, step. cbn [for_each]. unfold chunk_step.
  intros H Hinv.
  destruct (sentinel =? 1) eqn:E1.
  - destruct (radar_acquisition env s_filtered d polygon col name) as [r|e];
      cbn [bind] in *; [|discriminate].
    inversion H; subst st. exists r. repeat split; try reflexivity. lia.
  - destruct (sentinel =? 2) eqn:E2.
    + destruct (optical_acquisition env s_filtered d polygon col name)
        as [r|e]; cbn [bind] in *; [|discriminate].
      inversion H; subst st. exists r. repeat split; try reflexivity. lia.
    + destruct Hinv as [?|[?| ->]]; try lia. cbn [bind] in H. discriminate.
Qed.

Lemma for_each_rows (chunk : list date) :
  forall acc prev st,
    for_each step (acc, prev) chunk = Ok st ->
    sentinel = 1 \/ sentinel = 2 \/ prev = None ->
    exists rs, fst st = acc ++ rs /\ Forall2 single chunk rs.
Proof.
  induction chunk as [|d chunk IH]; intros acc prev st H Hinv.
  - simpl in H. inversion H; subst st. exists []. simpl.
    rewrite app_nil_r. split; [reflexivity | constructor].
  - cbn [for_each] in H.
    destruct (step (acc, prev) d) as [st1|e] eqn:E; cbn [bind] in H;
      [|discriminate].
    apply chunk_step_Ok in E; [|exact Hinv].
    destruct E as (r & -> & Hr & Hs).
    apply IH in H; [|tauto]. destruct H as (rs & Hfst & Hrs).
    exists (r :: rs). rewrite Hfst, <- app_assoc. split; [reflexivity|].
    constructor; assumption.
Qed.

Lemma process_chunk_rows (chunk : list date) (rs : list (row num coords)) :
  process_chunk env s_filtered chunk polygon col name sentinel = Ok rs ->
  Forall2 single chunk rs.
Proof.
  unfold process_chunk. fold step. intros H.
  destruct (for_each step ([], None) chunk) as [st|e] eqn:E; cbn [bind] in H;
    [|discriminate].
  inversion H; subst rs. apply for_each_rows in E; [|tauto].
  destruct E as (rs & -> & Hrs). exact Hrs.
Qed.

Lemma Forall2_concat {X Y : Type} (R : X -> Y -> Prop)
  (xss : list (list X)) (yss : list (list Y)) :
  Forall2 (Forall2 R) xss yss -> Forall2 R (concat xss) (concat yss).
Proof.
  induction 1; simpl; [constructor|]. apply Forall2_app; assumption.
Qed.

Lemma chunk_tasks_rows (chunks : list (list date)) :
  forall ls,
    map (fun chunk =>
           process_chunk env s_filtered chunk polygon col name sentinel)
        chunks = map Ok ls ->
    Forall2 (Forall2 single) chunks ls.
Proof.
  induction chunks as [|c chunks IH]; intros [|l ls] Hmap; simpl in Hmap;
    try discriminate; constructor.
  - inversion Hmap. apply process_chunk_rows. assumption.
  - apply IH. inversion Hmap. reflexivity.
Qed.

(** The rows of a field task: one per date, in some order. *)
Lemma parallelize_rows (picks : list nat) (dates : list date)
  (occupied : Z) (rows : list (row num coords)) :
  parallelize_features_read env picks s_filtered dates polygon col name
    sentinel occupied = Ok rows ->
  exists rs, Forall2 single dates rs /\ Permutation rs rows.
Proof.
  unfold parallelize_features_read. intros H.
  set (k := max_workers env - occupied) in *.
  destruct (split_dates dates k) as [chunks|e] eqn:Es; cbn [bind] in H;
    [|discriminate].
  unfold ThreadPoolExecutor in H.
  destruct (k <=? 0) eqn:Ek; cbn [bind] in H; [discriminate|].
  apply split_dates_concat in Es; [|lia].
  apply gather_Ok_inv in H. destruct H as (ls & Hmap & Hperm).
  exists (concat ls). split; [|exact Hperm].
  rewrite <- Es. apply Forall2_concat, chunk_tasks_rows. exact Hmap.
Qed.

End ChunkRows.

(** *** Rows of a field and of a table *)

Lemma Forall2_map_l {X Y Z' : Type} (R : Y -> Z' -> Prop) (g : X -> Y)
  (xs : list X) (zs : list Z') :
  Forall2 (fun x z => R (g x) z) xs zs -> Forall2 R (map g xs) zs.
Proof. induction 1; simpl; constructor; assumption. Qed.

Lemma process_field_rows (picks : list nat) (label : string)
  (f : field coords) (start_date end_date : string) (sentinel occupied : Z)
  (rows : list (row num coords)) :
  process_field env picks (Series label f) start_date end_date sentinel
    occupied = Ok rows ->
  exists rs,
    Forall2 (row_of_pair env label start_date end_date sentinel)
      (map (pair f) (reported_dates env start_date end_date sentinel f)) rs /\
    Permutation rs rows.
Proof.
  rewrite process_field_Series. unfold reported_dates. intros H.
  destruct (filter_collection sentinel (Polygon (field_polygon f)) start_date
              end_date) as [s_filtered|] eqn:Ef; [|discriminate].
  destruct (getInfo_dates env s_filtered) as [dates|e]; cbn [bind] in H;
    [|discriminate].
  apply parallelize_rows in H. destruct H as (rs & Hrs & Hperm).
  exists rs. split; [|exact Hperm].
  apply Forall2_map_l. eapply Forall2_impl; [|exact Hrs].
  intros d r Hr. exists s_filtered. split; [exact Ef | exact Hr].
Qed.

Lemma run_tasks_rows (inner : nat -> list nat) (label : string)
  (start_date end_date : string) (sentinel fields_threads : Z)
  (fs : list (field coords)) :
  forall i ls,
    run_tasks env inner i
      (map (fun f => (Series label f, fields_threads)) fs) start_date end_date
      sentinel = map Ok ls ->
    exists rows,
      Forall2 (row_of_pair env label start_date end_date sentinel)
        (flat_map
           (fun f =>
              map (pair f) (reported_dates env start_date end_date sentinel f))
           fs) rows /\
      Permutation rows (concat ls).
Proof.
  induction fs as [|f fs IH]; intros i [|l ls] H; simpl in H;
    try discriminate.
  - exists []. split; constructor.
  - inversion H as [[Hf Hrest]].
    apply process_field_rows in Hf. destruct Hf as (rs & Hrs & Hp).
    apply IH in Hrest. destruct Hrest as (rows & Hrows & Hp').
    exists (rs ++ rows). split.
    + simpl. apply Forall2_app; assumption.
    + simpl. apply Permutation_app; assumption.
Qed.

Lemma insert_row_perm (leb : row num coords -> row num coords -> bool)
  (r : row num coords) (sorted : list (row num coords)) :
  Permutation (r :: sorted) (insert_row leb r sorted).
Proof.
  induction sorted as [|r' rest IH]; simpl; [reflexivity|].
  destruct (leb r r'); [reflexivity|].
  rewrite perm_swap. constructor. exact IH.
Qed.

Lemma sort_rows_perm (leb : row num coords -> row num coords -> bool)
  (df : list (row num coords)) :
  Permutation df (sort_rows leb df).
Proof.
  induction df as [|r df IH]; simpl; [constructor|].
  rewrite <- insert_row_perm. constructor. exact IH.
Qed.

Lemma sort_values_perm (c0 c1 : string) (df tbl : list (row num coords)) :
  sort_values env c0 c1 df = Ok tbl -> Permutation df tbl.
Proof.
  unfold sort_values. intros H.
  destruct (kind_of env (map (cell c0) df)) as [k0|e]; cbn [bind] in H;
    [|discriminate].
  destruct (kind_of env (map (cell c1) df)) as [k1|e]; cbn [bind] in H;
    [|discriminate].
  inversion H. apply sort_rows_perm.
Qed.

Lemma get_features_Ok_table (outer : list nat) (inner : nat -> list nat)
  (fields_df : pandas_obj coords) (start_date end_date : string)
  (sentinel fields_threads : Z) (tbl : list (row num coords)) :
  get_features env outer inner fields_df start_date end_date sentinel
    fields_threads = Ok tbl ->
  1 <= fields_threads /\ ~ two_row_table fields_df.
Proof.
  intros H.
  assert (Hft : 1 <= fields_threads).
  { unfold get_features, ThreadPoolExecutor in H.
    destruct (fields_threads <=? 0) eqn:E; [discriminate | lia]. }
  split; [exact Hft|].
  intros (label & f1 & f2 & ->).
  rewrite get_features_two_rows in H by exact Hft. discriminate.
Qed.

(** What a successful call went through. *)
Lemma get_features_Ok_inv (outer : list nat) (inner : nat -> list nat)
  (fields_df : pandas_obj coords) (start_date end_date : string)
  (sentinel fields_threads : Z) (tbl : list (row num coords)) :
  get_features env outer inner fields_df start_date end_date sentinel
    fields_threads = Ok tbl ->
  exists df_list rows c0 c1,
    Forall2 (row_of_pair env (label_of fields_df) start_date end_date sentinel)
      (reported_pairs env fields_df start_date end_date sentinel) rows /\
    Permutation rows df_list /\
    column_at df_list 0 = Ok c0 /\
    column_at df_list 1 = Ok c1 /\
    sort_values env c0 c1 df_list = Ok tbl.
Proof.
  intros H.
  destruct (get_features_Ok_table _ _ _ _ _ _ _ _ H) as [Hft Hnot].
  unfold get_features, ThreadPoolExecutor in H.
  destruct (fields_threads <=? 0) eqn:E; [lia|]. cbn [bind] in H.
  rewrite submissions_rows in H by exact Hnot. cbn [bind] in H.
  destruct (gather outer _) as [df_list|e] eqn:Eg; cbn [bind] in H;
    [|discriminate].
  destruct (column_at df_list 0) as [c0|e] eqn:E0; cbn [bind] in H;
    [|discriminate].
  destruct (column_at df_list 1) as [c1|e] eqn:E1; cbn [bind] in H;
    [|discriminate].
  apply gather_Ok_inv in Eg. destruct Eg as (ls & Hmap & Hperm).
  apply run_tasks_rows in Hmap. destruct Hmap as (rows & Hrows & Hp).
  exists df_list, rows, c0, c1. repeat split; try assumption.
  etransitivity; eassumption.
Qed.

(** *** One row per pair *)

(** X1.  Every table that [get_features] returns holds exactly one row per
    (field, date) pair that the platform reported: listing the pairs field
    by field, there is a list of rows, one made for each pair in turn, of
    which the table is a rearrangement.  In particular the table has as
    many rows as there are pairs, and every field of the input was handed
    to one task. *)
Lemma one_row_per_pair (outer : list nat) (inner : nat -> list nat)
  (fields_df : pandas_obj coords) (start_date end_date : string)
  (sentinel fields_threads : Z) (tbl : list (row num coords)) :
  get_features env outer inner fields_df start_date end_date sentinel
    fields_threads = Ok tbl ->
  (exists rows,
     Forall2 (row_of_pair env (label_of fields_df) start_date end_date sentinel)
       (reported_pairs env fields_df start_date end_date sentinel) rows /\
     Permutation rows tbl) /\
  length tbl
  = length (reported_pairs env fields_df start_date end_date sentinel) /\
  submissions fields_df fields_threads
  = Ok (map (fun f => (Series (label_of fields_df) f, fields_threads))
          (fields_of fields_df)).
Proof.
  intros H.
  assert (Hsub : submissions fields_df fields_threads
                 = Ok (map (fun f => (Series (label_of fields_df) f,
                                      fields_threads))
                         (fields_of fields_df))).
  { apply submissions_rows.
    apply (get_features_Ok_table _ _ _ _ _ _ _ _ H). }
  apply get_features_Ok_inv in H.
  destruct H as (df_list & rows & c0 & c1 & Hrows & Hp & _ & _ & Hs).
  apply sort_values_perm in Hs.
  assert (Hperm : Permutation rows tbl) by (etransitivity; eassumption).
  split; [exists rows; split; assumption|]. split; [|exact Hsub].
  rewrite <- (Permutation_length Hperm). symmetry.
  eapply Forall2_length. exact Hrows.
Qed.

(** *** Sorting on the keys *)

Lemma string_leb_false (s t : string) :
  String.leb s t = false -> String.ltb t s = true.
Proof.
  unfold String.leb, String.ltb. rewrite (String.compare_antisym s t).
  destruct (String.compare t s); simpl; congruence.
Qed.

Lemma key_leb_le (k1 k2 : string * date) :
  key_leb k1 k2 = true -> key_le k1 k2.
Proof.
  unfold key_leb, key_le. intros H.
  destruct (String.leb (fst k1) (fst k2)) eqn:E1; [|discriminate].
  destruct (String.leb (fst k2) (fst k1)) eqn:E2.
  - right. split; [apply String.leb_antisym; assumption | lia].
  - left. apply string_leb_false. exact E2.
Qed.

Lemma key_leb_total (k1 k2 : string * date) :
  key_leb k1 k2 = false -> key_le k2 k1.
Proof.
  unfold key_leb, key_le. intros H.
  destruct (String.leb (fst k1) (fst k2)) eqn:E1.
  - destruct (String.leb (fst k2) (fst k1)) eqn:E2; [|discriminate].
    right. split; [apply String.leb_antisym; assumption | lia].
  - left. apply string_leb_false. exact E1.
Qed.

Lemma insert_key_perm (k : string * date) (ks : list (string * date)) :
  Permutation (k :: ks) (insert_key k ks).
Proof.
  induction ks as [|k' ks IH]; simpl; [reflexivity|].
  destruct (key_leb k k'); [reflexivity|].
  rewrite perm_swap. constructor. exact IH.
Qed.

Lemma sort_keys_perm (ks : list (string * date)) :
  Permutation ks (sort_keys ks).
Proof.
  induction ks as [|k ks IH]; simpl; [constructor|].
  rewrite <- insert_key_perm. constructor. exact IH.
Qed.

Lemma insert_key_sorted (k : string * date) (ks : list (string * date)) :
  Sorted key_le ks -> Sorted key_le (insert_key k ks).
Proof.
  induction 1 as [|k' ks Hs IH Hhd]; simpl; [repeat constructor|].
  destruct (key_leb k k') eqn:E.
  - constructor; [constructor; assumption|].
    constructor. apply key_leb_le. exact E.
  - constructor; [exact IH|].
    destruct ks as [|k'' ks]; simpl.
    + constructor. apply key_leb_total. exact E.
    + destruct (key_leb k k''); constructor.
      * apply key_leb_total. exact E.
      * inversion Hhd. assumption.
Qed.

Lemma sort_keys_sorted (ks : list (string * date)) :
  Sorted key_le (sort_keys ks).
Proof.
  induction ks as [|k ks IH]; simpl; [constructor|].
  apply insert_key_sorted. exact IH.
Qed.

Section KeyedRows.

Variable label : string.
Variable sentinel : Z.

Let K := @row_key num coords label sentinel.

Lemma keyed_cells (r : row num coords) (k : string * date) :
  K r = Some k ->
  cell label r = PStr (fst k) /\
  cell (date_column sentinel) r = PTimestamp (snd k).
Proof.
  unfold K, row_key, cell. intros H.
  destruct (dict_get r label) as [[]|]; try discriminate.
  destruct (dict_get r (date_column sentinel)) as [[]|]; try discriminate.
  inversion H. split; reflexivity.
Qed.

(** The identifier column of keyed rows holds strings, their date column
    timestamps. *)
Lemma keyed_label_cells (df : list (row num coords)) :
  forall ks,
    map K df = map Some ks ->
    forallb (fun v => is_str v || is_none v) (map (cell label) df) = true.
Proof.
  induction df as [|r df IH]; intros [|k ks] Hm; simpl in Hm;
    try discriminate; [reflexivity|].
  inversion Hm as [[Hk Hrest]]. simpl.
  destruct (keyed_cells r k Hk) as [-> _]. simpl. eapply IH. exact Hrest.
Qed.

Lemma keyed_date_cells (df : list (row num coords)) :
  forall ks,
    map K df = map Some ks ->
    forallb (fun v => is_timestamp v || is_none v)
      (map (cell (date_column sentinel)) df) = true.
Proof.
  induction df as [|r df IH]; intros [|k ks] Hm; simpl in Hm;
    try discriminate; [reflexivity|].
  inversion Hm as [[Hk Hrest]]. simpl.
  destruct (keyed_cells r k Hk) as [_ ->]. simpl. eapply IH. exact Hrest.
Qed.

Lemma keyed_kinds (df : list (row num coords)) (ks : list (string * date)) :
  map K df = map Some ks ->
  kind_of env (map (cell label) df) = Ok strings /\
  (df = [] \/
   kind_of env (map (cell (date_column sentinel)) df) = Ok timestamps).
Proof.
  intros Hm. split.
  - unfold kind_of. rewrite (keyed_label_cells df ks Hm). reflexivity.
  - destruct df as [|r df]; [left; reflexivity|right].
    destruct ks as [|k ks]; simpl in Hm; [discriminate|].
    inversion Hm as [[Hk Hrest]]. unfold kind_of. simpl.
    destruct (keyed_cells r k Hk) as [_ ->]. simpl.
    rewrite (keyed_date_cells df ks Hrest). reflexivity.
Qed.

Lemma rows_leb_keyed (r1 r2 : row num coords) (k1 k2 : string * date) :
  K r1 = Some k1 -> K r2 = Some k2 ->
  rows_leb env strings timestamps label (date_column sentinel) r1 r2
  = key_leb k1 k2.
Proof.
  intros H1 H2. unfold rows_leb, key_leb.
  destruct (keyed_cells r1 k1 H1) as [-> ->].
  destruct (keyed_cells r2 k2 H2) as [-> ->]. simpl.
  destruct (String.leb (fst k1) (fst k2)), (String.leb (fst k2) (fst k1));
    reflexivity.
Qed.

Lemma insert_row_keyed (r : row num coords) (k : string * date)
  (sorted : list (row num coords)) (ks : list (string * date)) :
  K r = Some k -> map K sorted = map Some ks ->
  map K (insert_row
           (rows_leb env strings timestamps label (date_column sentinel))
           r sorted)
  = map Some (insert_key k ks).
Proof.
  intros Hk. revert ks.
  induction sorted as [|r' rest IH]; intros [|k' ks] Hm; simpl in Hm;
    try discriminate.
  - simpl. rewrite Hk. reflexivity.
  - inversion Hm as [[Hk' Hrest]]. simpl.
    rewrite (rows_leb_keyed r r' k k' Hk Hk').
    destruct (key_leb k k').
    + simpl. rewrite Hk, Hk', Hrest. reflexivity.
    + simpl. rewrite Hk', (IH ks Hrest). reflexivity.
Qed.

Lemma sort_rows_keyed (df : list (row num coords)) :
  forall ks,
    map K df = map Some ks ->
    map K (sort_rows
             (rows_leb env strings timestamps label (date_column sentinel))
             df)
    = map Some (sort_keys ks).
Proof.
  induction df as [|r df IH]; intros [|k ks] Hm; simpl in Hm;
    try discriminate; [reflexivity|].
  inversion Hm as [[Hk Hrest]]. simpl.
  apply insert_row_keyed; [exact Hk | apply IH; exact Hrest].
Qed.

Lemma sort_values_keyed (df : list (row num coords)) :
  forall ks,
    map K df = map Some ks ->
    exists tbl, sort_values env label (date_column sentinel) df = Ok tbl /\
                map K tbl = map Some (sort_keys ks).
Proof.
  intros ks Hm. unfold sort_values.
  destruct (keyed_kinds df ks Hm) as [E0 [-> | E1]].
  - destruct ks; [|discriminate]. eexists. split; reflexivity.
  - rewrite E0, E1. cbn [bind].
    eexists. split; [reflexivity|]. apply sort_rows_keyed. exact Hm.
Qed.

End KeyedRows.

(** *** The shape of a row *)

Lemma dict_get_set_same (d : row num coords) (k : string) (v : pyval num coords) :
  dict_get (dict_set d k v) k = Some v.
Proof.
  induction d as [|[k' v'] d IH]; simpl.
  - rewrite String.eqb_refl. reflexivity.
  - destruct (String.eqb k k') eqn:E; simpl; rewrite E; [reflexivity|exact IH].
Qed.

Lemma dict_get_set_other (d : row num coords) (k k' : string)
  (v : pyval num coords) :
  k' <> k -> dict_get (dict_set d k v) k' = dict_get d k'.
Proof.
  intros Hne. induction d as [|[k0 v0] d IH]; simpl.
  - apply String.eqb_neq in Hne. rewrite Hne. reflexivity.
  - destruct (String.eqb k k0) eqn:E; simpl.
    + apply String.eqb_eq in E. subst k0.
      apply String.eqb_neq in Hne. rewrite Hne. reflexivity.
    + rewrite IH. reflexivity.
Qed.

Lemma dict_set_keys (d : row num coords) (k : string) (v : pyval num coords) :
  exists more, keys (dict_set d k v) = keys d ++ more.
Proof.
  induction d as [|[k' v'] d [more IH]]; simpl.
  - exists [k]. reflexivity.
  - destruct (String.eqb k k'); simpl.
    + exists []. rewrite app_nil_r. reflexivity.
    + exists more. unfold keys in *. simpl. rewrite IH. reflexivity.
Qed.

Lemma dict_fold_get (items : list (string * pyval num coords)) :
  forall (d : row num coords) (k : string),
    ~ In k (map fst items) ->
    dict_get (fold_left (fun d kv => dict_set d (fst kv) (snd kv)) items d) k
    = dict_get d k.
Proof.
  induction items as [|[k0 v0] items IH]; intros d k Hk; simpl in *.
  - reflexivity.
  - rewrite IH by tauto. apply dict_get_set_other. intros ->. tauto.
Qed.

Lemma dict_fold_keys (items : list (string * pyval num coords)) :
  forall d : row num coords,
    exists more,
      keys (fold_left (fun d kv => dict_set d (fst kv) (snd kv)) items d)
      = keys d ++ more.
Proof.
  induction items as [|[k0 v0] items IH]; intros d; simpl.
  - exists []. rewrite app_nil_r. reflexivity.
  - destruct (IH (dict_set d k0 v0)) as [more ->].
    destruct (dict_set_keys d k0 v0) as [more' ->].
    exists (more' ++ more). rewrite app_assoc. reflexivity.
Qed.

(** A dictionary display that starts with two distinct keys which do not
    come again: they are its first two keys, with the values given. *)
Lemma dict_of_head (k0 k1 : string) (v0 v1 : pyval num coords)
  (items : list (string * pyval num coords)) :
  k0 <> k1 -> ~ In k0 (map fst items) -> ~ In k1 (map fst items) ->
  dict_get (dict_of ((k0, v0) :: (k1, v1) :: items)) k0 = Some v0 /\
  dict_get (dict_of ((k0, v0) :: (k1, v1) :: items)) k1 = Some v1 /\
  exists more, keys (dict_of ((k0, v0) :: (k1, v1) :: items)) = k0 :: k1 :: more.
Proof.
  intros Hne H0 H1. unfold dict_of. cbn [fold_left fst snd dict_set].
  apply String.eqb_neq in Hne.
  rewrite String.eqb_sym in Hne. rewrite Hne.
  rewrite !dict_fold_get by assumption.
  split; [|split].
  - simpl. rewrite String.eqb_refl. reflexivity.
  - simpl. rewrite Hne, String.eqb_refl. reflexivity.
  - destruct (dict_fold_keys items [(k0, v0); (k1, v1)]) as [more ->].
    exists more. reflexivity.
Qed.

Lemma in_map_fst_combine {X Y : Type} (x : X) (xs : list X) (ys : list Y) :
  In x (map fst (combine xs ys)) -> In x xs.
Proof.
  intros H. apply in_map_iff in H. destruct H as ([x' y] & <- & H).
  simpl. eapply in_combine_l. exact H.
Qed.

Lemma optical_acquisition_shape (s_filtered : ImageCollection coords)
  (d : date) (polygon : Geometry coords) (col name : string)
  (r : row num coords) :
  optical_acquisition env s_filtered d polygon col name = Ok r ->
  exists bands indices,
    r = dict_of
          ((col, PStr name)
             :: ("s2_acquisition_date", PTimestamp d)
             :: combine optical_bands bands
             ++ combine (map fst (optical_index_calls num coords)) indices).
Proof.
  unfold optical_acquisition. intros H.
  destruct (optical_features env "get_all_bands" _) as [bands_means|e];
    cbn [bind] in H; [|discriminate].
  destruct (sequence (map _ (optical_index_calls num coords)))
    as [indices|e]; cbn [bind] in H; [|discriminate].
  destruct (sequence (map (subscript bands_means) optical_bands))
    as [bands|e]; cbn [bind] in H; [|discriminate].
  inversion H. exists bands, indices. reflexivity.
Qed.

Lemma existsb_eqb_false (k : string) (l : list string) :
  existsb (String.eqb k) l = false -> ~ In k l.
Proof.
  intros H Hin. apply Bool.not_true_iff_false in H. apply H.
  apply existsb_exists. exists k. split; [exact Hin | apply String.eqb_refl].
Qed.

Lemma date_column_fresh :
  ~ In "s2_acquisition_date"
      (optical_bands ++ map fst (optical_index_calls num coords)).
Proof.
  apply existsb_eqb_false. reflexivity.
Qed.

(** The row made for a pair has the identifier and the date of the pair as
    its first two columns, unless the identifier column is labelled like a
    feature column. *)
Lemma row_of_pair_shape (label : string) (start_date end_date : string)
  (sentinel : Z) (p : field coords * date) (r : row num coords) :
  row_of_pair env label start_date end_date sentinel p r ->
  ~ In label (feature_columns num coords sentinel) ->
  row_key label sentinel r = Some (pair_key p) /\
  exists more, keys r = label :: date_column sentinel :: more.
Proof.
  intros (s_filtered & Hs & Hr) Hlabel.
  unfold filter_collection in Hs.
  destruct (sentinel =? 1) eqn:E1.
  { apply Z.eqb_eq in E1. subst sentinel.
    rewrite process_chunk_radar in Hr. discriminate. }
  destruct (sentinel =? 2) eqn:E2; [|discriminate].
  apply Z.eqb_eq in E2. subst sentinel.
  unfold process_chunk in Hr. cbn [for_each] in Hr.
  unfold chunk_step in Hr. cbn [Z.eqb Pos.eqb] in Hr.
  destruct (optical_acquisition env s_filtered (snd p) _ label _)
    as [r'|e] eqn:Ea; cbn [bind] in Hr; [|discriminate].
  cbn [bind fst app] in Hr. inversion Hr; subst r'. clear Hr.
  apply optical_acquisition_shape in Ea.
  destruct Ea as (bands & indices & ->).
  unfold feature_columns in Hlabel. cbn [Z.eqb Pos.eqb] in Hlabel.
  set (rest := combine optical_bands bands
               ++ combine (map fst (optical_index_calls num coords)) indices).
  assert (Hrest : forall k,
             In k (map fst rest) ->
             In k (optical_bands ++ map fst (optical_index_calls num coords))).
  { intros k Hk. unfold rest in Hk. rewrite map_app in Hk.
    apply in_app_or in Hk. apply in_or_app.
    destruct Hk as [Hk|Hk]; [left|right];
      eapply in_map_fst_combine; exact Hk. }
  destruct (dict_of_head label "s2_acquisition_date" (PStr (field_name (fst p)))
              (PTimestamp (snd p)) rest) as (H0 & H1 & Hkeys).
  - intros ->. apply Hlabel. left. reflexivity.
  - intros Hin. apply Hlabel. right. apply Hrest. exact Hin.
  - intros Hin. apply date_column_fresh. apply Hrest. exact Hin.
  - unfold row_key, date_column. cbn [Z.eqb Pos.eqb].
    fold rest. rewrite H0, H1. split; [reflexivity | exact Hkeys].
Qed.

(** *** The columns of the table *)

Lemma columns_fold_prefix (df : list (row num coords)) :
  forall cols,
    exists more,
      fold_left
        (fun cols r =>
           cols ++ filter (fun k => negb (existsb (String.eqb k) cols)) (keys r))
        df cols
      = cols ++ more.
Proof.
  induction df as [|r df IH]; intros cols; simpl.
  - exists []. rewrite app_nil_r. reflexivity.
  - destruct (IH (cols ++ filter (fun k => negb (existsb (String.eqb k) cols))
                          (keys r))) as [more ->].
    eexists. rewrite <- app_assoc. reflexivity.
Qed.

Lemma filter_fresh_nil (l : list string) :
  filter (fun k => negb (existsb (String.eqb k) [])) l = l.
Proof.
  induction l as [|k l IH]; [reflexivity|].
  change (k :: filter (fun k => negb (existsb (String.eqb k) [])) l = k :: l).
  f_equal. exact IH.
Qed.

Lemma column_at_head (r : row num coords) (df : list (row num coords))
  (a b : string) (more : list string) :
  keys r = a :: b :: more ->
  column_at (r :: df) 0 = Ok a /\ column_at (r :: df) 1 = Ok b.
Proof.
  intros Hk. unfold column_at, columns. cbn [fold_left app].
  rewrite filter_fresh_nil, Hk.
  destruct (columns_fold_prefix df (a :: b :: more)) as [more' ->].
  split; reflexivity.
Qed.

(** *** The order of the table *)

Lemma shaped_rows (label : string) (start_date end_date : string)
  (sentinel : Z) (pairs : list (field coords * date))
  (rows : list (row num coords)) :
  ~ In label (feature_columns num coords sentinel) ->
  Forall2 (row_of_pair env label start_date end_date sentinel) pairs rows ->
  map (row_key label sentinel) rows = map Some (map pair_key pairs) /\
  Forall (fun r => exists more, keys r = label :: date_column sentinel :: more)
    rows.
Proof.
  intros Hlabel. induction 1 as [|p r pairs rows Hr _ [IHk IHs]]; simpl.
  - split; [reflexivity | constructor].
  - destruct (row_of_pair_shape _ _ _ _ _ _ Hr Hlabel) as [Hk Hs].
    rewrite Hk, IHk. split; [reflexivity | constructor; assumption].
Qed.

Lemma map_Some_inj {X : Type} (l l' : list X) :
  map Some l = map Some l' -> l = l'.
Proof.
  revert l'; induction l as [|x l IH]; intros [|x' l'] H; simpl in H;
    try discriminate; [reflexivity|].
  inversion H. f_equal. apply IH. assumption.
Qed.

(** X17.  When the identifier column is not labelled like one of the
    feature columns, the table that [get_features] returns is in ascending
    order of (field identifier, acquisition date): its rows carry the
    identifiers and dates of the reported pairs, and every row's key is at
    most the key of the next row, identifiers compared as strings and dates
    as days. *)
Theorem table_sorted (outer : list nat) (inner : nat -> list nat)
  (fields_df : pandas_obj coords) (start_date end_date : string)
  (sentinel fields_threads : Z) (tbl : list (row num coords)) :
  get_features env outer inner fields_df start_date end_date sentinel
    fields_threads = Ok tbl ->
  ~ In (label_of fields_df) (feature_columns num coords sentinel) ->
  exists ks,
    map (row_key (label_of fields_df) sentinel) tbl = map Some ks /\
    Sorted key_le ks /\
    Permutation ks
      (map pair_key
         (reported_pairs env fields_df start_date end_date sentinel)).
Proof.
  intros H Hlabel. apply get_features_Ok_inv in H.
  destruct H as (df_list & rows & c0 & c1 & Hrows & Hp & H0 & H1 & Hs).
  set (label := label_of fields_df) in *.
  set (pairs := reported_pairs env fields_df start_date end_date sentinel)
    in *.
  destruct (shaped_rows _ _ _ _ _ _ Hlabel Hrows) as [Hkeys Hshape].
  assert (Hshape' :
            Forall (fun r => exists more,
                        keys r = label :: date_column sentinel :: more)
              df_list).
  { rewrite Forall_forall in *. intros r Hr. apply Hshape.
    eapply Permutation_in; [symmetry; exact Hp | exact Hr]. }
  assert (Hcols : c0 = label /\ c1 = date_column sentinel).
  { destruct df_list as [|r0 df]; [discriminate H0|].
    inversion Hshape' as [|? ? [more Hk] _]; subst.
    destruct (column_at_head r0 df _ _ _ Hk) as [E0 E1].
    rewrite E0 in H0. rewrite E1 in H1.
    inversion H0; inversion H1. split; reflexivity. }
  destruct Hcols as [-> ->].
  pose proof (Permutation_map (row_key label sentinel) Hp) as Hpk.
  rewrite Hkeys in Hpk. symmetry in Hpk.
  apply Permutation_map_inv in Hpk. destruct Hpk as (ks0 & Hk0 & Hperm0).
  destruct (sort_values_keyed label sentinel df_list ks0 Hk0)
    as (tbl' & Hs' & Hk').
  rewrite Hs' in Hs. inversion Hs; subst tbl'.
  exists (sort_keys ks0). split; [exact Hk'|].
  split; [apply sort_keys_sorted|].
  rewrite <- sort_keys_perm. symmetry. exact Hperm0.
Qed.

(** *** Sentinel-1 never yields a table *)

Lemma concat_cons_In {X : Type} (x : X) (xs : list X) (l : list (list X)) :
  concat l = x :: xs -> exists y ys, In (y :: ys) l.
Proof.
  induction l as [|[|y ys] l IH]; simpl; intros H.
  - discriminate.
  - destruct (IH H) as (y & ys & Hin). exists y, ys. right. exact Hin.
  - exists y, ys. left. reflexivity.
Qed.

Lemma process_field_radar_fails (picks : list nat) (fld : pandas_obj coords)
  (start_date end_date : string) (occupied : Z) :
  fails (process_field env picks fld start_date end_date 1 occupied).
Proof.
  destruct fld as [label f | label rows]; [|eexists; reflexivity].
  rewrite process_field_Series. cbn [filter_collection Z.eqb Pos.eqb].
  destruct (getInfo_dates env _) as [dates|e]; [|eexists; reflexivity].
  cbn [bind]. destruct dates as [|d rest].
  { rewrite parallelize_no_dates. eexists. reflexivity. }
  unfold parallelize_features_read.
  destruct (split_dates (d :: rest) _) as [chunks|e] eqn:Es;
    [|eexists; reflexivity].
  cbn [bind]. unfold ThreadPoolExecutor.
  destruct (max_workers env - occupied <=? 0) eqn:Ek; [eexists; reflexivity|].
  cbn [bind]. apply split_dates_concat in Es; [|lia].
  destruct (concat_cons_In _ _ _ Es) as (y & ys & Hin).
  apply gather_In_fails with (e := AttributeError).
  apply in_map_iff. exists (y :: ys). split; [|exact Hin].
  apply process_chunk_radar.
Qed.

(** Whatever the input, a call for Sentinel-1 returns no table. *)
Lemma radar_never_returns (outer : list nat) (inner : nat -> list nat)
  (fields_df : pandas_obj coords) (start_date end_date : string)
  (fields_threads : Z) :
  fails (get_features env outer inner fields_df start_date end_date 1
           fields_threads).
Proof.
  apply get_features_no_task_succeeds. intros picks fld.
  apply process_field_radar_fails.
Qed.

(** *** Sentinel-2 yields a table *)

Section OpticalRuns.

Hypothesis Hopt : optical_answers env.

Lemma optical_acquisition_Ok (s_filtered : ImageCollection coords) (d : date)
  (polygon : Geometry coords) (col name : string) :
  exists r, optical_acquisition env s_filtered d polygon col name = Ok r.
Proof.
  destruct Hopt as [Hbands Hany]. unfold optical_acquisition.
  destruct (Hbands s_filtered d polygon) as (items & -> & Hitems).
  cbn [bind].
  destruct (sequence_Forall_Ok
              (map (fun c =>
                      optical_features env (fst (snd c))
                        (PDict items :: snd (snd c)))
                 (optical_index_calls num coords))) as [indices ->].
  { apply Forall_forall. intros m Hm. apply in_map_iff in Hm.
    destruct Hm as (c & <- & _). apply Hany. }
  cbn [bind].
  destruct (sequence_Forall_Ok (map (subscript (PDict items)) optical_bands))
    as [bands ->].
  { apply Forall_forall. intros m Hm. apply in_map_iff in Hm.
    destruct Hm as (b & <- & Hb). rewrite Forall_forall in Hitems.
    specialize (Hitems b Hb). unfold subscript.
    destruct (dict_get items b) as [x|]; [exists x; reflexivity | congruence]. }
  cbn [bind]. eexists. reflexivity.
Qed.

Lemma for_each_optical_Ok (s_filtered : ImageCollection coords)
  (polygon : Geometry coords) (col name : string) (chunk : list date) :
  forall st,
    exists st',
      for_each (chunk_step env s_filtered polygon col name 2) st chunk
      = Ok st'.
Proof.
  induction chunk as [|d chunk IH]; intros [acc prev]; simpl.
  - eexists. reflexivity.
  - destruct (optical_acquisition_Ok s_filtered d polygon col name)
      as [r ->].
    cbn [bind]. apply IH.
Qed.

Lemma process_chunk_optical_Ok (s_filtered : ImageCollection coords)
  (chunk : list date) (polygon : Geometry coords) (col name : string) :
  exists rs, process_chunk env s_filtered chunk polygon col name 2 = Ok rs.
Proof.
  unfold process_chunk.
  destruct (for_each_optical_Ok s_filtered polygon col name chunk ([], None))
    as [st ->].
  eexists. reflexivity.
Qed.

Lemma parallelize_optical_Ok (picks : list nat)
  (s_filtered : ImageCollection coords) (dates : list date)
  (polygon : Geometry coords) (col name : string) (occupied : Z) :
  1 <= max_workers env - occupied <= len dates ->
  exists rows,
    parallelize_features_read env picks s_filtered dates polygon col name 2
      occupied = Ok rows.
Proof.
  intros Hk. unfold parallelize_features_read.
  rewrite split_dates_Ok by exact Hk. cbn [bind]. unfold ThreadPoolExecutor.
  destruct (max_workers env - occupied <=? 0) eqn:E; [lia|]. cbn [bind].
  match goal with
  | |- context [gather picks (map ?g ?chunks)] =>
      destruct (map_Forall_Ok g chunks) as [ls ->]
  end.
  { intros chunk _. apply process_chunk_optical_Ok. }
  apply gather_map_Ok.
Qed.


End OpticalRuns.

End Properties.

(** ** Runs on the sample platforms *)



(** [budget_exhausted_fails] with four workers, all of them at the field
    level, on a single field whose date query succeeds: of the cases of the
    theorem only [ZeroDivisionError] is left. *)
Lemma budget_exhausted_fails_witness :
  max_workers (sample_platform 4 [10; 20; 30]) <= 4 /\
  get_features (sample_platform 4 [10; 20; 30]) [] no_picks
    (Series "crop" field_a) "2023-01-01" "2023-12-31" 2 4
  = Raise ZeroDivisionError.
Proof.
  split; [vm_compute; discriminate|].
  destruct (budget_exhausted_fails Z unit (sample_platform 4 [10; 20; 30]) []
              no_picks (Series "crop" field_a) "2023-01-01" "2023-12-31" 2 4)
    as (e & He & _ & _ & _ & _ & Hcase).
  - vm_compute. discriminate.
  - rewrite He. f_equal.
    destruct Hcase as [(f & s_filtered & _ & _ & Hq) | [[_ Hz] | [Hlt _]]].
    + lia.
    + discriminate.
    + intros (label & f1 & f2 & E). discriminate E.
    + right. reflexivity.
    + discriminate Hq.
    + exact Hz.
    + vm_compute in Hlt. discriminate Hlt.
Defined.

(** With an exhausted budget a failing date query is met first: on the
    platform that has no image for field n the same call raises the error of
    the query. *)
Lemma exhausted_budget_query_error :
  get_features flaky_platform [] no_picks (Series "crop" tagged_none)
    "2023-01-01" "2023-12-31" 2 4
  = Raise (EEException "no image").
Proof. reflexivity. Qed.

(** C5 as stated fails on the specification's own example: four workers,
    four of them at the field level, a single field.  The call raises
    [ZeroDivisionError], not an error named [InvalidBudget]. *)
Lemma exhausted_budget_not_InvalidBudget :
  get_features (sample_platform 4 [10; 20; 30]) [] no_picks
    (Series "crop" field_a) "2023-01-01" "2023-12-31" 2 4
  = Raise ZeroDivisionError /\
  ~ (exists e,
       get_features (sample_platform 4 [10; 20; 30]) [] no_picks
         (Series "crop" field_a) "2023-01-01" "2023-12-31" 2 4 = Raise e /\
       exn_name e = "InvalidBudget").
Proof.
  assert (E : get_features (sample_platform 4 [10; 20; 30]) [] no_picks
                (Series "crop" field_a) "2023-01-01" "2023-12-31" 2 4
              = Raise ZeroDivisionError) by reflexivity.
  split; [exact E|].
  intros (e & He & Hn). rewrite E in He. inversion He; subst e.
  discriminate Hn.
Qed.

(** C8 as stated fails: on an empty table the call raises [IndexError], not
    an error named [EmptyFieldSet]. *)
Lemma empty_table_not_EmptyFieldSet :
  get_features (sample_platform 8 [10; 20; 30]) [] no_picks
    (DataFrame "crop" []) "2023-01-01" "2023-12-31" 2 4
  = Raise IndexError /\
  ~ (exists e,
       get_features (sample_platform 8 [10; 20; 30]) [] no_picks
         (DataFrame "crop" []) "2023-01-01" "2023-12-31" 2 4 = Raise e /\
       exn_name e = "EmptyFieldSet").
Proof.
  assert (E : get_features (sample_platform 8 [10; 20; 30]) [] no_picks
                (DataFrame "crop" []) "2023-01-01" "2023-12-31" 2 4
              = Raise IndexError) by reflexivity.
  split; [exact E|].
  intros (e & He & Hn). rewrite E in He. inversion He; subst e.
  discriminate Hn.
Qed.

(** [zero_dates_fail] on a platform that reports no date: the failing input
    of C6. *)
Lemma zero_dates_fail_witness :
  (forall picks,
     process_field (sample_platform 8 []) picks (Series "crop" field_a)
       "2023-01-01" "2023-12-31" 2 4 = Raise ValueError) /\
  (1 <= 4 ->
   forall outer inner,
     get_features (sample_platform 8 []) outer inner (Series "crop" field_a)
       "2023-01-01" "2023-12-31" 2 4 = Raise ValueError).
Proof.
  apply (zero_dates_fail Z unit (sample_platform 8 []) "crop" field_a
           "2023-01-01" "2023-12-31" 2 4
           (sentinel2_collection (Polygon tt) "2023-01-01" "2023-12-31"));
    reflexivity.
Defined.

(** [unbound_sentinel] for satellite number 3. *)
Lemma unbound_sentinel_witness :
  get_features (sample_platform 8 [10; 20; 30]) [] no_picks
    (Series "crop" field_a) "2023-01-01" "2023-12-31" 3 4
  = Raise UnboundLocalError.
Proof.
  apply (unbound_sentinel Z unit (sample_platform 8 [10; 20; 30]) 3).
  - discriminate.
  - discriminate.
  - lia.
  - discriminate.
  - intros (l & f1 & f2 & E). discriminate E.
Defined.

(** C7 on the code.  The scenario of two fields with three Sentinel-1 dates
    each, one field-level worker and two workers in all, returns no table of
    six rows.  The table of two fields is taken for a single field and its
    first column read by position, a [KeyError]; and each of its rows, were
    it processed, would stop at the missing [get_all_polarizations]. *)
Theorem radar_scenario_fails :
  (forall outer inner,
     get_features (sample_platform 2 [10; 20; 30]) outer inner
       (DataFrame "crop" [field_a; field_b]) "2023-01-01" "2023-12-31" 1 1
     = Raise KeyError) /\
  (forall picks f,
     process_field (sample_platform 2 [10; 20; 30]) picks (Series "crop" f)
       "2023-01-01" "2023-12-31" 1 1
     = Raise AttributeError).
Proof.
  split.
  - intros outer inner. apply get_features_two_rows. lia.
  - intros picks f. rewrite process_field_Series.
    cbn [filter_collection Z.eqb Pos.eqb sample_platform getInfo_dates bind].
    unfold parallelize_features_read.
    change (split_dates [10; 20; 30] (max_workers (sample_platform 2 [10; 20; 30]) - 1))
      with (Ok (A := list (list date)) [[10; 20; 30]]).
    cbn [bind]. change (ThreadPoolExecutor _) with (Ok tt). cbn [bind map].
    apply gather_Forall_Raise; [discriminate|].
    repeat constructor.
Qed.

(** [one_row_per_pair] on the sample run: six rows for three fields with two
    dates each. *)
Lemma sample_run_rows :
  sample_run = Ok sample_table /\
  length sample_table = 6%nat /\
  ((exists rows,
      Forall2
        (row_of_pair (sample_platform 4 [10; 20]) "crop" "2023-01-01"
           "2023-12-31" 2)
        (reported_pairs (sample_platform 4 [10; 20])
           (DataFrame "crop" [field_c; field_a; field_b]) "2023-01-01"
           "2023-12-31" 2)
        rows /\
      Permutation rows sample_table) /\
   length sample_table
   = length
       (reported_pairs (sample_platform 4 [10; 20])
          (DataFrame "crop" [field_c; field_a; field_b]) "2023-01-01"
          "2023-12-31" 2) /\
   submissions (DataFrame "crop" [field_c; field_a; field_b]) 2
   = Ok (map (fun f => (Series "crop" f, 2)) [field_c; field_a; field_b])).
Proof.
  split; [vm_compute; reflexivity|]. split; [reflexivity|].
  apply (one_row_per_pair Z unit (sample_platform 4 [10; 20]) [2%nat; 0%nat]
           (fun _ => [1%nat]) (DataFrame "crop" [field_c; field_a; field_b])
           "2023-01-01" "2023-12-31" 2 2 sample_table).
  vm_compute. reflexivity.
Defined.

(** [table_sorted] on the sample run: the fields come out as a, b, c. *)
Lemma table_sorted_witness :
  map (row_key "crop" 2) sample_table
  = map Some [("a", 10); ("a", 20); ("b", 10); ("b", 20); ("c", 10); ("c", 20)]
  /\
  exists ks,
    map (row_key "crop" 2) sample_table = map Some ks /\
    Sorted key_le ks /\
    Permutation ks
      (map pair_key
         (reported_pairs (sample_platform 4 [10; 20])
            (DataFrame "crop" [field_c; field_a; field_b]) "2023-01-01"
            "2023-12-31" 2)).
Proof.
  split; [vm_compute; reflexivity|].
  apply (table_sorted Z unit (sample_platform 4 [10; 20]) [2%nat; 0%nat]
           (fun _ => [1%nat]) (DataFrame "crop" [field_c; field_a; field_b])
           "2023-01-01" "2023-12-31" 2 2 sample_table).
  - vm_compute. reflexivity.
  - apply existsb_eqb_false. vm_compute. reflexivity.
Defined.

(** C2 on the code.  A table whose identifier column is labelled [B1], like
    the first band.  The dictionary display of [process_chunk] gives the
    key [B1] twice, so the band mean takes the place of the identifier in
    every row; [get_features] sorts on that column, and the table it returns
    is not in the order of the identifiers: the rows of field c come first,
    then those of b, then those of a. *)
Lemma label_clash_unsorted :
  clash_run = Ok clash_table /\
  Forall2 (row_of_pair tagged_platform "B1" "2023-01-01" "2023-12-31" 2)
    [ (tagged_c, 10); (tagged_c, 20); (tagged_b, 10); (tagged_b, 20);
      (tagged_a, 10); (tagged_a, 20) ]
    clash_table /\
  ~ key_le (pair_key (tagged_c, 20)) (pair_key (tagged_b, 10)) /\
  ~ (exists ks,
       map (row_key "B1" 2) clash_table = map Some ks /\ Sorted key_le ks).
Proof.
  split; [vm_compute; reflexivity|]. split.
  - assert (Hrow : forall f d r,
               process_chunk tagged_platform
                 (sentinel2_collection (Polygon (field_polygon f))
                    "2023-01-01" "2023-12-31")
                 [d] (Polygon (field_polygon f)) "B1" (field_name f) 2
               = Ok [r] ->
               row_of_pair tagged_platform "B1" "2023-01-01" "2023-12-31" 2
                 (f, d) r).
    { intros f d r H. eexists. split; [reflexivity | exact H]. }
    unfold clash_table.
    repeat (apply Forall2_cons; [apply Hrow; vm_compute; reflexivity|]).
    apply Forall2_nil.
  - split.
    + intros [H|[H _]]; vm_compute in H; discriminate H.
    + intros (ks & Hk & _). destruct ks as [|k ks]; vm_compute in Hk;
        discriminate Hk.
Qed.

(** C1 on the code.  A table of exactly two fields, two dates reported for
    each: the claim asks for four rows, one task per field.  The code
    submits a single task for the whole table, as it does for a single row,
    and the call raises [KeyError]. *)
Theorem two_field_table_rejected :
  length
    (reported_pairs (sample_platform 4 [10; 20])
       (DataFrame "crop" [field_a; field_b]) "2023-01-01" "2023-12-31" 2)
  = 4%nat /\
  submissions (DataFrame "crop" [field_a; field_b]) 2
  = Ok [(DataFrame "crop" [field_a; field_b], 2)] /\
  (forall outer inner,
     get_features (sample_platform 4 [10; 20]) outer inner
       (DataFrame "crop" [field_a; field_b]) "2023-01-01" "2023-12-31" 2 2
     = Raise KeyError).
Proof.
  split; [reflexivity|]. split; [reflexivity|].
  intros outer inner. apply get_features_two_rows. lia.
Qed.

(** A field with fewer dates than inner workers stops the call as well:
    three dates, eight workers, two of them at the field level. *)
Lemma few_dates_rejected :
  forall outer inner,
    get_features (sample_platform 8 [10; 20; 30]) outer inner
      (Series "crop" field_a) "2023-01-01" "2023-12-31" 2 2
    = Raise ValueError.
Proof.
  intros outer inner. apply get_features_all_Raise.
  - lia.
  - discriminate.
  - intros (l & f1 & f2 & E). discriminate E.
  - intros picks f _. rewrite process_field_Series.
    cbn [filter_collection Z.eqb Pos.eqb sample_platform getInfo_dates bind].
    apply parallelize_few_dates. vm_compute. reflexivity.
Qed.

(** * Further properties of the two modules *)

(** ** The order of the keys *)

Lemma ascii_compare_refl (a : ascii) : Ascii.compare a a = Eq.
Proof. unfold Ascii.compare. apply N.compare_refl. Qed.

Lemma ascii_compare_lt_trans (a b c : ascii) :
  Ascii.compare a b = Lt -> Ascii.compare b c = Lt -> Ascii.compare a c = Lt.
Proof.
  unfold Ascii.compare. rewrite !N.compare_lt_iff. apply N.lt_trans.
Qed.

Lemma string_compare_refl (s : string) : String.compare s s = Eq.
Proof.
  induction s as [|a s IH]; simpl; [reflexivity|].
  rewrite ascii_compare_refl. exact IH.
Qed.

Lemma string_compare_lt_trans (s t u : string) :
  String.compare s t = Lt -> String.compare t u = Lt ->
  String.compare s u = Lt.
Proof.
  revert t u. induction s as [|a s IH]; intros [|b t] [|c u]; simpl;
    try congruence.
  destruct (Ascii.compare a b) eqn:Eab; try discriminate;
    destruct (Ascii.compare b c) eqn:Ebc; try discriminate; intros H1 H2.
  - apply Ascii.compare_eq_iff in Eab, Ebc. subst.
    rewrite ascii_compare_refl. eapply IH; eassumption.
  - apply Ascii.compare_eq_iff in Eab. subst. rewrite Ebc. reflexivity.
  - apply Ascii.compare_eq_iff in Ebc. subst. rewrite Eab. reflexivity.
  - rewrite (ascii_compare_lt_trans a b c Eab Ebc). reflexivity.
Qed.

Lemma string_ltb_trans (s t u : string) :
  String.ltb s t = true -> String.ltb t u = true -> String.ltb s u = true.
Proof.
  unfold String.ltb. intros H1 H2.
  destruct (String.compare s t) eqn:E1; try discriminate.
  destruct (String.compare t u) eqn:E2; try discriminate.
  rewrite (string_compare_lt_trans s t u E1 E2). reflexivity.
Qed.

Lemma string_ltb_irrefl (s : string) : String.ltb s s = false.
Proof. unfold String.ltb. rewrite string_compare_refl. reflexivity. Qed.

Lemma key_le_trans (k1 k2 k3 : string * date) :
  key_le k1 k2 -> key_le k2 k3 -> key_le k1 k3.
Proof.
  unfold key_le. intros [H1|[E1 D1]] [H2|[E2 D2]].
  - left. eapply string_ltb_trans; eassumption.
  - left. rewrite <- E2. exact H1.
  - left. rewrite E1. exact H2.
  - right. split; [congruence | lia].
Qed.

Lemma key_le_antisym (k1 k2 : string * date) :
  key_le k1 k2 -> key_le k2 k1 -> k1 = k2.
Proof.
  unfold key_le. destruct k1 as [i1 d1], k2 as [i2 d2]; simpl.
  intros [H1|[E1 D1]] [H2|[E2 D2]].
  - pose proof (string_ltb_trans _ _ _ H1 H2) as H.
    rewrite string_ltb_irrefl in H. discriminate.
  - subst. rewrite string_ltb_irrefl in H1. discriminate.
  - subst. rewrite string_ltb_irrefl in H2. discriminate.
  - subst. f_equal. lia.
Qed.

(** Two sorted arrangements of the same keys are the same list. *)
Lemma sorted_keys_unique (ks ks' : list (string * date)) :
  Sorted key_le ks -> Sorted key_le ks' -> Permutation ks ks' -> ks = ks'.
Proof.
  intros S S' P.
  apply Sorted_StronglySorted in S; [|exact key_le_trans].
  apply Sorted_StronglySorted in S'; [|exact key_le_trans].
  revert ks' S' P. induction S as [|k ks Sks IH Hk]; intros ks' S' P.
  - apply Permutation_nil in P. subst. reflexivity.
  - destruct S' as [|k' ks' Sks' Hk'].
    + symmetry in P. apply Permutation_nil in P. discriminate.
    + assert (E : k = k').
      { rewrite Forall_forall in Hk, Hk'.
        assert (In k (k' :: ks'))
          by (eapply Permutation_in; [exact P | left; reflexivity]).
        assert (In k' (k :: ks))
          by (eapply Permutation_in; [symmetry; exact P | left; reflexivity]).
        destruct H as [->|H]; [reflexivity|].
        destruct H0 as [->|H0]; [reflexivity|].
        apply key_le_antisym; [apply Hk; exact H0 | apply Hk'; exact H]. }
      subst k'. f_equal. apply IH; [exact Sks'|].
      eapply Permutation_cons_inv. exact P.
Qed.

Section Coverage.

Variables num coords : Type.
Variable env : Platform num coords.

(** ** [process_chunk]: a chunk is its dates, one after the other *)

Lemma chunk_step_from (s_filtered : ImageCollection coords)
  (polygon : Geometry coords) (col name : string) (sentinel : Z)
  (acc : list (row num coords)) (prev : option (row num coords)) (d : date)
  (r : row num coords) :
  process_chunk env s_filtered [d] polygon col name sentinel = Ok [r] ->
  chunk_step env s_filtered polygon col name sentinel (acc, prev) d
  = Ok (acc ++ [r], Some r).
Proof.
  unfold process_chunk. cbn [for_each]. unfold chunk_step.
  destruct (sentinel =? 1).
  - destruct (radar_acquisition env s_filtered d polygon col name) as [r'|e];
      cbn [bind fst app]; [|discriminate].
    intros H. inversion H. reflexivity.
  - destruct (sentinel =? 2).
    + destruct (optical_acquisition env s_filtered d polygon col name)
        as [r'|e]; cbn [bind fst app]; [|discriminate].
      intros H. inversion H. reflexivity.
    + cbn [bind]. discriminate.
Qed.

Lemma for_each_from (s_filtered : ImageCollection coords)
  (polygon : Geometry coords) (col name : string) (sentinel : Z)
  (chunk : list date) (rs : list (row num coords)) :
  Forall2
    (fun d r =>
       process_chunk env s_filtered [d] polygon col name sentinel = Ok [r])
    chunk rs ->
  forall acc prev,
    exists prev',
      for_each (chunk_step env s_filtered polygon col name sentinel)
        (acc, prev) chunk
      = Ok (acc ++ rs, prev').
Proof.
  induction 1 as [|d r chunk rs Hd _ IH]; intros acc prev.
  - exists prev. simpl. rewrite app_nil_r. reflexivity.
  - cbn [for_each]. rewrite (chunk_step_from _ _ _ _ _ acc prev d r Hd).
    cbn [bind]. destruct (IH (acc ++ [r]) (Some r)) as [prev' ->].
    exists prev'. rewrite <- app_assoc. reflexivity.
Qed.

Lemma process_chunk_of_rows (s_filtered : ImageCollection coords)
  (chunk : list date) (polygon : Geometry coords) (col name : string)
  (sentinel : Z) (rs : list (row num coords)) :
  Forall2
    (fun d r =>
       process_chunk env s_filtered [d] polygon col name sentinel = Ok [r])
    chunk rs ->
  process_chunk env s_filtered chunk polygon col name sentinel = Ok rs.
Proof.
  intros H. unfold process_chunk.
  destruct (for_each_from _ _ _ _ _ _ _ H [] None) as [prev' ->].
  reflexivity.
Qed.

(** X6.  [process_chunk] returns a list of rows exactly when every date of
    the chunk yields a row when processed alone, and the list is then those
    rows in the order of the dates: one row per date, none for an empty
    chunk, and cutting the dates into chunks changes no row. *)
Theorem process_chunk_date_by_date (s_filtered : ImageCollection coords)
  (chunk : list date) (polygon : Geometry coords) (col name : string)
  (sentinel : Z) (rs : list (row num coords)) :
  process_chunk env s_filtered chunk polygon col name sentinel = Ok rs <->
  Forall2
    (fun d r =>
       process_chunk env s_filtered [d] polygon col name sentinel = Ok [r])
    chunk rs.
Proof.
  split; [apply process_chunk_rows | apply process_chunk_of_rows].
Qed.

(** X7.  A date that fails when processed alone makes every chunk that
    holds it fail: the rows already made for the earlier dates of the chunk
    are not returned. *)
Theorem process_chunk_fail_fast (s_filtered : ImageCollection coords)
  (chunk : list date) (polygon : Geometry coords) (col name : string)
  (sentinel : Z) (d : date) (e : exn) :
  In d chunk ->
  process_chunk env s_filtered [d] polygon col name sentinel = Raise e ->
  fails (process_chunk env s_filtered chunk polygon col name sentinel).
Proof.
  intros Hin Hd.
  destruct (process_chunk env s_filtered chunk polygon col name sentinel)
    as [rs|e'] eqn:E; [|exists e'; reflexivity].
  exfalso. apply process_chunk_rows in E.
  revert Hin. induction E as [|d' r chunk rs Hd' _ IH]; intros Hin;
    [destruct Hin|].
  destruct Hin as [->|Hin].
  - rewrite Hd in Hd'. discriminate.
  - apply IH. exact Hin.
Qed.

(** ** [parallelize_features_read]: when it returns, and what *)

Lemma Forall2_concat_inv {X Y : Type} (R : X -> Y -> Prop)
  (xss : list (list X)) :
  forall ys,
    Forall2 R (concat xss) ys ->
    exists yss, ys = concat yss /\ Forall2 (Forall2 R) xss yss.
Proof.
  induction xss as [|xs xss IH]; intros ys H; simpl in H.
  - inversion H. exists []. split; [reflexivity | constructor].
  - apply Forall2_app_inv_l in H. destruct H as (ys1 & ys2 & H1 & H2 & ->).
    destruct (IH ys2 H2) as (yss & -> & Hyss).
    exists (ys1 :: yss). split; [reflexivity | constructor; assumption].
Qed.

Lemma split_dates_Ok_bounds {A : Type} (dates : list A) (k : Z)
  (chunks : list (list A)) :
  split_dates dates k = Ok chunks -> 1 <= k -> k <= len dates.
Proof.
  unfold split_dates, floordiv, py_range. intros H Hk.
  destruct (k =? 0) eqn:E0; [lia|]. cbn [bind] in H.
  destruct (len dates / k =? 0) eqn:E1; [discriminate|].
  destruct (Z_lt_le_dec (len dates) k) as [Hlt|Hle]; [|exact Hle].
  rewrite Z.div_small in E1 by (unfold len in *; lia). discriminate.
Qed.

(** X8.  Whenever [parallelize_features_read] returns, the inner worker
    count [T - already_occupied_threads] lies between one and the number of
    dates, and the rows returned are a rearrangement of one row per date of
    the range: whatever the order in which the chunk tasks finish, the
    chunking loses no date and repeats none. *)
Theorem parallelize_returns_all_dates (picks : list nat)
  (s_filtered : ImageCollection coords) (dates : list date)
  (polygon : Geometry coords) (col name : string) (sentinel occupied : Z)
  (rows : list (row num coords)) :
  parallelize_features_read env picks s_filtered dates polygon col name
    sentinel occupied = Ok rows ->
  1 <= max_workers env - occupied <= len dates /\
  exists rs,
    Forall2
      (fun d r =>
         process_chunk env s_filtered [d] polygon col name sentinel = Ok [r])
      dates rs /\
    Permutation rs rows.
Proof.
  intros H. split; [|eapply parallelize_rows; exact H].
  unfold parallelize_features_read in H.
  destruct (split_dates dates (max_workers env - occupied)) as [chunks|e]
    eqn:Es; cbn [bind] in H; [|discriminate].
  unfold ThreadPoolExecutor in H.
  destruct (max_workers env - occupied <=? 0) eqn:Ek; [discriminate|].
  split; [lia|]. eapply split_dates_Ok_bounds; [exact Es | lia].
Qed.

(** X9.  Conversely, with an inner worker count between one and the number
    of dates, [parallelize_features_read] returns as soon as every date of
    the range yields a row when processed alone, for every order in which
    the chunk tasks finish, and it returns a rearrangement of those rows. *)
Theorem parallelize_succeeds (picks : list nat)
  (s_filtered : ImageCollection coords) (dates : list date)
  (polygon : Geometry coords) (col name : string) (sentinel occupied : Z)
  (rs : list (row num coords)) :
  1 <= max_workers env - occupied <= len dates ->
  Forall2
    (fun d r =>
       process_chunk env s_filtered [d] polygon col name sentinel = Ok [r])
    dates rs ->
  exists rows,
    parallelize_features_read env picks s_filtered dates polygon col name
      sentinel occupied = Ok rows /\
    Permutation rs rows.
Proof.
  intros Hk Hrs. unfold parallelize_features_read.
  pose proof (split_dates_Ok dates _ Hk) as Es.
  pose proof (split_dates_concat dates _ _ Es (proj1 Hk)) as Ec.
  rewrite Es. cbn [bind]. unfold ThreadPoolExecutor.
  destruct (max_workers env - occupied <=? 0) eqn:E; [lia|]. cbn [bind].
  set (chunks := chunks_of _ _ dates) in *.
  rewrite <- Ec in Hrs. apply Forall2_concat_inv in Hrs.
  destruct Hrs as (yss & -> & Hyss).
  assert (Hmap : map (fun chunk =>
                        process_chunk env s_filtered chunk polygon col name
                          sentinel) chunks = map Ok yss).
  { clear - Hyss. induction Hyss as [|c ys cs yss Hc _ IH]; simpl.
    - reflexivity.
    - rewrite (process_chunk_of_rows _ _ _ _ _ _ _ Hc), IH. reflexivity. }
  rewrite Hmap. destruct (gather_map_Ok picks yss) as [rows Hg].
  exists rows. split; [exact Hg|].
  apply gather_Ok_inv in Hg. destruct Hg as (ls & Hls & Hp).
  apply map_Ok_inj in Hls. subst ls. exact Hp.
Qed.

(** ** [get_features]: when it returns *)

Lemma run_tasks_each_Ok (inner : nat -> list nat) (label : string)
  (start_date end_date : string) (sentinel fields_threads : Z)
  (fs : list (field coords)) :
  forall i ls,
    run_tasks env inner i
      (map (fun f => (Series label f, fields_threads)) fs) start_date end_date
      sentinel = map Ok ls ->
    forall f,
      In f fs ->
      exists picks l,
        process_field env picks (Series label f) start_date end_date sentinel
          fields_threads = Ok l.
Proof.
  induction fs as [|f0 fs IH]; intros i [|l ls] H f Hin; simpl in H;
    try discriminate; [destruct Hin|].
  inversion H as [[H0 Hrest]]. destruct Hin as [<-|Hin].
  - exists (inner i), l. exact H0.
  - eapply IH; eassumption.
Qed.

Lemma process_field_Ok_needs (picks : list nat) (label : string)
  (f : field coords) (start_date end_date : string) (sentinel occupied : Z)
  (l : list (row num coords)) :
  process_field env picks (Series label f) start_date end_date sentinel
    occupied = Ok l ->
  sentinel = 2 /\
  exists dates,
    getInfo_dates env
      (sentinel2_collection (Polygon (field_polygon f)) start_date end_date)
    = Ok dates /\
    1 <= max_workers env - occupied <= len dates.
Proof.
  intros H.
  destruct (Z.eq_dec sentinel 1) as [->|H1].
  { destruct (process_field_radar_fails num coords env picks (Series label f)
                start_date end_date occupied) as [e He].
    rewrite He in H. discriminate. }
  destruct (Z.eq_dec sentinel 2) as [->|H2].
  - split; [reflexivity|]. rewrite process_field_Series in H.
    cbn [filter_collection Z.eqb Pos.eqb] in H.
    destruct (getInfo_dates env _) as [dates|e]; cbn [bind] in H;
      [|discriminate].
    exists dates. split; [reflexivity|].
    unfold parallelize_features_read in H.
    destruct (split_dates dates (max_workers env - occupied)) as [chunks|e]
      eqn:Es; cbn [bind] in H; [|discriminate].
    unfold ThreadPoolExecutor in H.
    destruct (max_workers env - occupied <=? 0) eqn:Ek; [discriminate|].
    split; [lia|]. eapply split_dates_Ok_bounds; [exact Es | lia].
  - rewrite process_field_unbound in H by assumption. discriminate.
Qed.

(** X3.  [get_features] returns a table only for Sentinel-2, with at least
    one field-level worker, on an input that is not a table of exactly two
    fields, and when the platform reports for every field at least as many
    dates as there are inner workers, with at least one inner worker.  The
    table returned is never empty. *)
Theorem get_features_returns_only_if (outer : list nat)
  (inner : nat -> list nat) (fields_df : pandas_obj coords)
  (start_date end_date : string) (sentinel fields_threads : Z)
  (tbl : list (row num coords)) :
  get_features env outer inner fields_df start_date end_date sentinel
    fields_threads = Ok tbl ->
  sentinel = 2 /\
  1 <= fields_threads /\
  ~ two_row_table fields_df /\
  fields_of fields_df <> [] /\
  tbl <> [] /\
  forall f,
    In f (fields_of fields_df) ->
    exists dates,
      getInfo_dates env
        (sentinel2_collection (Polygon (field_polygon f)) start_date end_date)
      = Ok dates /\
      1 <= max_workers env - fields_threads <= len dates.
Proof.
  intros H.
  destruct (get_features_Ok_table num coords env _ _ _ _ _ _ _ _ H)
    as [Hft Hnot].
  pose proof H as H'. unfold get_features, ThreadPoolExecutor in H'.
  destruct (fields_threads <=? 0) eqn:E; [lia|]. cbn [bind] in H'.
  rewrite submissions_rows in H' by exact Hnot. cbn [bind] in H'.
  destruct (gather outer _) as [df_list|e] eqn:Eg; cbn [bind] in H';
    [|discriminate].
  destruct (column_at df_list 0) as [c0|e] eqn:E0; cbn [bind] in H';
    [|discriminate].
  destruct (column_at df_list 1) as [c1|e] eqn:E1; cbn [bind] in H';
    [|discriminate].
  apply sort_values_perm in H'.
  apply gather_Ok_inv in Eg. destruct Eg as (ls & Hmap & Hperm).
  assert (Hdf : df_list <> []) by (intros ->; discriminate E0).
  assert (Hfs : fields_of fields_df <> []).
  { intros Hnil. rewrite Hnil in Hmap. destruct ls; [|discriminate].
    simpl in Hperm. apply Permutation_nil in Hperm. congruence. }
  assert (Heach : forall f,
             In f (fields_of fields_df) ->
             sentinel = 2 /\
             exists dates,
               getInfo_dates env
                 (sentinel2_collection (Polygon (field_polygon f)) start_date
                    end_date) = Ok dates /\
               1 <= max_workers env - fields_threads <= len dates).
  { intros f Hf.
    destruct (run_tasks_each_Ok _ _ _ _ _ _ _ _ _ Hmap f Hf)
      as (picks & l & Hl).
    eapply process_field_Ok_needs. exact Hl. }
  split.
  { destruct (fields_of fields_df) as [|f fs]; [congruence|].
    apply (Heach f). left. reflexivity. }
  split; [exact Hft|]. split; [exact Hnot|]. split; [exact Hfs|]. split.
  { intros ->. symmetry in H'. apply Permutation_nil in H'. congruence. }
  intros f Hf. apply (Heach f Hf).
Qed.

(** ** [get_features]: the table does not depend on the scheduling *)

Lemma gather_reschedule {A : Type} (picks picks' : list nat)
  (futures : list (result (list A))) (rows : list A) :
  gather picks futures = Ok rows ->
  exists rows', gather picks' futures = Ok rows' /\ Permutation rows rows'.
Proof.
  intros H. apply gather_Ok_inv in H. destruct H as (ls & -> & Hp).
  destruct (gather_map_Ok picks' ls) as [rows' Hg]. exists rows'.
  split; [exact Hg|].
  apply gather_Ok_inv in Hg. destruct Hg as (ls' & Hls & Hp').
  apply map_Ok_inj in Hls. subst ls'.
  etransitivity; [symmetry; exact Hp | exact Hp'].
Qed.

Lemma process_field_reschedule (picks picks' : list nat)
  (fld : pandas_obj coords) (start_date end_date : string)
  (sentinel occupied : Z) (l : list (row num coords)) :
  process_field env picks fld start_date end_date sentinel occupied = Ok l ->
  exists l',
    process_field env picks' fld start_date end_date sentinel occupied
    = Ok l'.
Proof.
  destruct fld as [label f | label rows]; [|discriminate].
  rewrite !process_field_Series.
  destruct (filter_collection _ _ _ _) as [s_filtered|]; [|discriminate].
  destruct (getInfo_dates env s_filtered) as [dates|e]; cbn [bind];
    [|discriminate].
  unfold parallelize_features_read.
  destruct (split_dates dates _) as [chunks|e]; cbn [bind]; [|discriminate].
  destruct (ThreadPoolExecutor _) as [[]|e]; cbn [bind]; [|discriminate].
  intros H. destruct (gather_reschedule picks picks' _ _ H) as (l' & Hl' & _).
  exists l'. exact Hl'.
Qed.

Lemma run_tasks_reschedule (inner inner' : nat -> list nat)
  (start_date end_date : string) (sentinel : Z)
  (tasks : list (pandas_obj coords * Z)) :
  forall i ls,
    run_tasks env inner i tasks start_date end_date sentinel = map Ok ls ->
    exists ls',
      run_tasks env inner' i tasks start_date end_date sentinel = map Ok ls'.
Proof.
  induction tasks as [|[fld occ] tasks IH]; intros i [|l ls] H; simpl in H;
    try discriminate.
  - exists []. reflexivity.
  - inversion H as [[H0 Hrest]].
    destruct (process_field_reschedule _ (inner' i) _ _ _ _ _ _ H0)
      as [l' Hl'].
    destruct (IH _ _ Hrest) as [ls' Hls'].
    exists (l' :: ls'). simpl. rewrite Hl', Hls'. reflexivity.
Qed.

Lemma row_of_pair_functional (label : string) (start_date end_date : string)
  (sentinel : Z) (pairs : list (field coords * date))
  (rows rows' : list (row num coords)) :
  Forall2 (row_of_pair env label start_date end_date sentinel) pairs rows ->
  Forall2 (row_of_pair env label start_date end_date sentinel) pairs rows' ->
  rows = rows'.
Proof.
  intros H. revert rows'.
  induction H as [|p r pairs rows Hr _ IH]; intros rows' H'; inversion H';
    subst; [reflexivity|].
  f_equal; [|apply IH; assumption].
  destruct Hr as (s1 & Hs1 & Hr1).
  match goal with
  | Hy : row_of_pair _ _ _ _ _ p _ |- _ => destruct Hy as (s2 & Hs2 & Hr2)
  end.
  rewrite Hs1 in Hs2. inversion Hs2; subst s2.
  rewrite Hr1 in Hr2. inversion Hr2. reflexivity.
Qed.

Lemma NoDup_map_Some {X : Type} (l : list X) :
  NoDup l -> NoDup (map Some l).
Proof.
  induction 1 as [|x l Hx _ IH]; simpl; constructor; [|exact IH].
  intros Hin. apply in_map_iff in Hin. destruct Hin as (y & Hy & Hin).
  inversion Hy; subst. exact (Hx Hin).
Qed.

Lemma NoDup_map_In_inj {X Y : Type} (g : X -> Y) (l : list X) (x y : X) :
  NoDup (map g l) -> In x l -> In y l -> g x = g y -> x = y.
Proof.
  induction l as [|a l IH]; simpl; intros Hnd Hx Hy E; [destruct Hx|].
  inversion Hnd as [|? ? Ha Hnd']; subst.
  destruct Hx as [->|Hx], Hy as [->|Hy].
  - reflexivity.
  - exfalso. apply Ha. rewrite E. apply in_map. exact Hy.
  - exfalso. apply Ha. rewrite <- E. apply in_map. exact Hx.
  - apply IH; assumption.
Qed.

Lemma same_keys_same_rows {X Y : Type} (g : X -> Y) (rows : list X) :
  NoDup (map g rows) ->
  forall l l',
    (forall x, In x l -> In x rows) ->
    (forall x, In x l' -> In x rows) ->
    map g l = map g l' -> l = l'.
Proof.
  intros Hnd. induction l as [|x l IH]; intros [|x' l'] Hl Hl' E; simpl in E;
    try discriminate; [reflexivity|].
  inversion E as [[Ex El]]. f_equal.
  - eapply NoDup_map_In_inj; [exact Hnd | | | exact Ex].
    + apply Hl. left. reflexivity.
    + apply Hl'. left. reflexivity.
  - apply IH; [| |exact El].
    + intros y Hy. apply Hl. right. exact Hy.
    + intros y Hy. apply Hl'. right. exact Hy.
Qed.

(** Reading the two sort columns and sorting, on the rows of the pairs. *)
Lemma sort_rows_of_pairs (label : string) (start_date end_date : string)
  (sentinel : Z) (pairs : list (field coords * date))
  (rows df_list : list (row num coords)) :
  ~ In label (feature_columns num coords sentinel) ->
  Forall2 (row_of_pair env label start_date end_date sentinel) pairs rows ->
  Permutation rows df_list ->
  df_list <> [] ->
  exists tbl ks,
    (c0 <- column_at df_list 0 ;;
     c1 <- column_at df_list 1 ;;
     sort_values env c0 c1 df_list) = Ok tbl /\
    map (row_key label sentinel) tbl = map Some ks /\
    Sorted key_le ks /\
    Permutation ks (map pair_key pairs) /\
    Permutation rows tbl.
Proof.
  intros Hlabel Hrows Hperm Hne.
  destruct (shaped_rows num coords env _ _ _ _ _ _ Hlabel Hrows)
    as [Hkeys Hshape].
  destruct df_list as [|r0 df]; [congruence|].
  assert (Hshape0 : exists more,
             keys r0 = label :: date_column sentinel :: more).
  { rewrite Forall_forall in Hshape. apply Hshape.
    eapply Permutation_in; [symmetry; exact Hperm | left; reflexivity]. }
  destruct Hshape0 as [more Hk0].
  destruct (column_at_head num coords r0 df _ _ _ Hk0) as [-> ->].
  cbn [bind].
  pose proof (Permutation_map (row_key label sentinel) Hperm) as Hpk.
  rewrite Hkeys in Hpk. symmetry in Hpk.
  apply Permutation_map_inv in Hpk. destruct Hpk as (ks0 & Hk0' & Hp0).
  destruct (sort_values_keyed num coords env label sentinel (r0 :: df) ks0 Hk0')
    as (tbl & Hs & Hk).
  exists tbl, (sort_keys ks0). split; [exact Hs|]. split; [exact Hk|].
  split; [apply sort_keys_sorted|]. split.
  - rewrite <- sort_keys_perm. symmetry. exact Hp0.
  - etransitivity; [exact Hperm|]. eapply sort_values_perm. exact Hs.
Qed.


(** ** The columns of the table *)

Lemma dict_set_keys_fresh (d : row num coords) (k : string)
  (v : pyval num coords) :
  ~ In k (keys d) -> keys (dict_set d k v) = keys d ++ [k].
Proof.
  induction d as [|[k' v'] d IH]; simpl; intros Hk; [reflexivity|].
  destruct (String.eqb k k') eqn:E.
  - apply String.eqb_eq in E. subst. tauto.
  - simpl. f_equal. apply IH. tauto.
Qed.

Lemma dict_fold_keys_fresh (items : list (string * pyval num coords)) :
  forall d : row num coords,
    NoDup (keys d ++ map fst items) ->
    keys (fold_left (fun d kv => dict_set d (fst kv) (snd kv)) items d)
    = keys d ++ map fst items.
Proof.
  induction items as [|[k v] items IH]; intros d Hnd; simpl.
  - rewrite app_nil_r. reflexivity.
  - assert (Hk : ~ In k (keys d)).
    { apply NoDup_remove_2 in Hnd. intros Hin. apply Hnd.
      apply in_or_app. left. exact Hin. }
    rewrite IH; rewrite dict_set_keys_fresh by exact Hk.
    + rewrite <- app_assoc. reflexivity.
    + rewrite <- app_assoc. exact Hnd.
Qed.

Lemma sequence_length {A : Type} (ms : list (result A)) (l : list A) :
  sequence ms = Ok l -> length l = length ms.
Proof.
  intros H. apply sequence_Ok_inv in H. subst ms.
  rewrite length_map. reflexivity.
Qed.

Lemma map_fst_combine {X Y : Type} (xs : list X) :
  forall ys : list Y, length ys = length xs -> map fst (combine xs ys) = xs.
Proof.
  induction xs as [|x xs IH]; intros [|y ys] H; simpl in *; try discriminate;
    [reflexivity|].
  f_equal. apply IH. lia.
Qed.

Lemma feature_columns_NoDup : NoDup (feature_columns num coords 2).
Proof.
  unfold feature_columns. cbn [Z.eqb Pos.eqb].
  cbv [optical_bands optical_index_calls map fst app].
  repeat (apply NoDup_cons; [apply existsb_eqb_false; reflexivity|]).
  apply NoDup_nil.
Qed.

Lemma optical_acquisition_keys (s_filtered : ImageCollection coords)
  (d : date) (polygon : Geometry coords) (col name : string)
  (r : row num coords) :
  optical_acquisition env s_filtered d polygon col name = Ok r ->
  ~ In col (feature_columns num coords 2) ->
  keys r = col :: feature_columns num coords 2.
Proof.
  unfold optical_acquisition. intros H Hcol.
  destruct (optical_features env "get_all_bands" _) as [bands_means|e];
    cbn [bind] in H; [|discriminate].
  destruct (sequence (map _ (optical_index_calls num coords)))
    as [indices|e] eqn:Ei; cbn [bind] in H; [|discriminate].
  destruct (sequence (map (subscript bands_means) optical_bands))
    as [bands|e] eqn:Eb; cbn [bind] in H; [|discriminate].
  assert (Hr : r = dict_of
                     ((col, PStr name)
                        :: ("s2_acquisition_date", PTimestamp d)
                        :: combine optical_bands bands
                        ++ combine (map fst (optical_index_calls num coords))
                             indices))
    by congruence.
  clear H. subst r.
  apply sequence_length in Ei, Eb. rewrite length_map in Ei, Eb.
  unfold dict_of.
  assert (Hfst : map fst
                   ((col, PStr name)
                      :: ("s2_acquisition_date", PTimestamp d)
                      :: combine optical_bands bands
                      ++ combine (map fst (optical_index_calls num coords))
                           indices)
                 = col :: feature_columns num coords 2).
  { unfold feature_columns. cbn [Z.eqb Pos.eqb map fst]. f_equal. f_equal.
    rewrite map_app, !map_fst_combine; [reflexivity| |exact Eb].
    rewrite length_map. exact Ei. }
  rewrite dict_fold_keys_fresh; rewrite Hfst.
  - reflexivity.
  - simpl. constructor; [exact Hcol | apply feature_columns_NoDup].
Qed.

Lemma row_of_pair_keys (label : string) (start_date end_date : string)
  (sentinel : Z) (p : field coords * date) (r : row num coords) :
  row_of_pair env label start_date end_date sentinel p r ->
  ~ In label (feature_columns num coords sentinel) ->
  keys r = label :: feature_columns num coords sentinel.
Proof.
  intros (s_filtered & Hs & Hr) Hlabel.
  unfold filter_collection in Hs.
  destruct (sentinel =? 1) eqn:E1.
  { apply Z.eqb_eq in E1. subst sentinel.
    rewrite process_chunk_radar in Hr. discriminate. }
  destruct (sentinel =? 2) eqn:E2; [|discriminate].
  apply Z.eqb_eq in E2. subst sentinel.
  unfold process_chunk in Hr. cbn [for_each] in Hr.
  unfold chunk_step in Hr. cbn [Z.eqb Pos.eqb] in Hr.
  destruct (optical_acquisition env s_filtered (snd p) _ label _)
    as [r'|e] eqn:Ea; cbn [bind] in Hr; [|discriminate].
  cbn [bind fst app] in Hr. inversion Hr; subst r'.
  eapply optical_acquisition_keys; eassumption.
Qed.

Lemma columns_same_keys (cols : list string) (df : list (row num coords)) :
  Forall (fun r => keys r = cols) df ->
  fold_left
    (fun cols r =>
       cols ++ filter (fun k => negb (existsb (String.eqb k) cols)) (keys r))
    df cols
  = cols.
Proof.
  induction 1 as [|r df Hr _ IH]; simpl; [reflexivity|].
  assert (Hf : filter (fun k => negb (existsb (String.eqb k) cols)) (keys r)
               = []).
  { rewrite Hr. clear.
    assert (H : forall l,
               (forall k, In k l -> In k cols) ->
               filter (fun k => negb (existsb (String.eqb k) cols)) l = []).
    { induction l as [|k l IHl]; intros Hl; [reflexivity|]. simpl.
      assert (Hk : existsb (String.eqb k) cols = true).
      { apply existsb_exists. exists k.
        split; [apply Hl; left; reflexivity | apply String.eqb_refl]. }
      rewrite Hk. simpl. apply IHl. intros k' Hk'. apply Hl. right. exact Hk'. }
    apply H. auto. }
  rewrite Hf, app_nil_r. exact IH.
Qed.

(** X5.  Every table that [get_features] returns has the same 63 columns
    in the same order: the identifier column under the label it has in the
    fields table, the acquisition date, the twelve band means and the 49
    indices, and every row has a cell in each of them.  The identifier
    column must not be labelled like a feature column. *)
Theorem table_columns (outer : list nat) (inner : nat -> list nat)
  (fields_df : pandas_obj coords) (start_date end_date : string)
  (sentinel fields_threads : Z) (tbl : list (row num coords)) :
  get_features env outer inner fields_df start_date end_date sentinel
    fields_threads = Ok tbl ->
  ~ In (label_of fields_df) (feature_columns num coords sentinel) ->
  columns tbl = label_of fields_df :: feature_columns num coords sentinel /\
  length (columns tbl) = 63%nat /\
  Forall
    (fun r => keys r = label_of fields_df :: feature_columns num coords sentinel)
    tbl.
Proof.
  intros H Hlabel. apply get_features_Ok_inv in H.
  destruct H as (df_list & rows & c0 & c1 & Hrows & Hp & H0 & _ & Hs).
  apply sort_values_perm in Hs.
  set (cols := label_of fields_df :: feature_columns num coords sentinel).
  assert (Hall : Forall (fun r => keys r = cols) rows).
  { clear - Hrows Hlabel. induction Hrows as [|p r pairs rows Hr _ IH];
      constructor; [|exact IH].
    eapply row_of_pair_keys; eassumption. }
  assert (Htbl : Forall (fun r => keys r = cols) tbl).
  { rewrite Forall_forall in *. intros r Hr. apply Hall.
    eapply Permutation_in; [symmetry; etransitivity; eassumption | exact Hr]. }
  assert (Hcols : columns tbl = cols).
  { destruct tbl as [|r0 tbl'].
    - symmetry in Hs. apply Permutation_nil in Hs. subst df_list.
      discriminate H0.
    - unfold columns. cbn [fold_left app]. rewrite filter_fresh_nil.
      inversion Htbl as [|? ? Hr0 Htl]; subst. rewrite Hr0.
      apply columns_same_keys. exact Htl. }
  split; [exact Hcols|]. split; [|exact Htbl].
  rewrite Hcols.
  assert (Hsent : sentinel = 2).
  { destruct rows as [|r rows'].
    - apply Permutation_nil in Hp. subst df_list. discriminate H0.
    - inversion Hrows as [|p ? ? ? (s_filtered & Hsf & Hr) _]; subst.
      unfold filter_collection in Hsf.
      destruct (sentinel =? 1) eqn:E1.
      + apply Z.eqb_eq in E1. subst sentinel.
        rewrite process_chunk_radar in Hr. discriminate.
      + destruct (sentinel =? 2) eqn:E2; [lia | discriminate]. }
  unfold cols. rewrite Hsent. reflexivity.
Qed.

(** ** [process_field]: the rows of one field *)

(** X10.  When [process_field] returns for a field, the satellite is
    Sentinel-2 and the rows returned carry the name of that field and the
    dates that the platform reported for it, each date once, in some order.
    The identifier column must not be labelled like a feature column. *)
Theorem process_field_rows_of_field (picks : list nat) (label : string)
  (f : field coords) (start_date end_date : string) (sentinel occupied : Z)
  (l : list (row num coords)) :
  process_field env picks (Series label f) start_date end_date sentinel
    occupied = Ok l ->
  ~ In label (feature_columns num coords sentinel) ->
  sentinel = 2 /\
  Permutation (map (row_key label sentinel) l)
    (map (fun d => Some (field_name f, d))
       (reported_dates env start_date end_date sentinel f)).
Proof.
  intros H Hlabel.
  destruct (process_field_Ok_needs _ _ _ _ _ _ _ _ H) as [Hs _].
  split; [exact Hs|].
  apply process_field_rows in H. destruct H as (rs & Hrs & Hp).
  destruct (shaped_rows num coords env _ _ _ _ _ _ Hlabel Hrs) as [Hk _].
  rewrite <- (Permutation_map (row_key label sentinel) Hp), Hk.
  rewrite !map_map. reflexivity.
Qed.

(** X11.  A field for which the platform reports fewer dates than there
    are inner workers stops the call: the chunk size [len // num_chunks] is
    zero, [range] rejects it as a step, and [process_field], hence
    [get_features] on that field, raises [ValueError]. *)
Theorem few_dates_fail (label : string) (f : field coords)
  (start_date end_date : string) (sentinel occupied : Z)
  (s_filtered : ImageCollection coords) (dates : list date) :
  filter_collection sentinel (Polygon (field_polygon f)) start_date end_date
  = Some s_filtered ->
  getInfo_dates env s_filtered = Ok dates ->
  len dates < max_workers env - occupied ->
  (forall picks,
     process_field env picks (Series label f) start_date end_date sentinel
       occupied = Raise ValueError) /\
  (1 <= occupied ->
   forall outer inner,
     get_features env outer inner (Series label f) start_date end_date
       sentinel occupied = Raise ValueError).
Proof.
  intros Hs Hd Hk.
  assert (Hpf : forall picks,
             process_field env picks (Series label f) start_date end_date
               sentinel occupied = Raise ValueError).
  { intros picks. rewrite process_field_Series, Hs, Hd. cbn [bind].
    apply parallelize_few_dates. exact Hk. }
  split; [exact Hpf|].
  intros Hocc outer inner. apply get_features_all_Raise.
  - exact Hocc.
  - discriminate.
  - intros (l & f1 & f2 & E). discriminate E.
  - intros picks f' [<-|[]]. apply Hpf.
Qed.

(** ** [get_features]: one failing field, and a table of two fields *)

Lemma run_tasks_In (inner : nat -> list nat) (label : string)
  (start_date end_date : string) (sentinel fields_threads : Z)
  (fs : list (field coords)) (f : field coords) :
  In f fs ->
  forall i,
    exists i',
      In (process_field env (inner i') (Series label f) start_date end_date
            sentinel fields_threads)
        (run_tasks env inner i
           (map (fun f => (Series label f, fields_threads)) fs) start_date
           end_date sentinel).
Proof.
  induction fs as [|f0 fs IH]; intros Hin i; [destruct Hin|].
  destruct Hin as [->|Hin].
  - exists i. left. reflexivity.
  - destruct (IH Hin (S i)) as [i' Hi']. exists i'. right. exact Hi'.
Qed.

(** X12.  One field is enough to lose the whole result: when the task of
    some field of the input fails, [get_features] fails, whatever the other
    fields would have yielded and whatever the order of completion; no
    partial table is returned. *)
Theorem one_failing_field_fails_all (outer : list nat)
  (inner : nat -> list nat) (fields_df : pandas_obj coords)
  (start_date end_date : string) (sentinel fields_threads : Z)
  (f : field coords) :
  In f (fields_of fields_df) ->
  (forall picks,
     fails (process_field env picks (Series (label_of fields_df) f)
              start_date end_date sentinel fields_threads)) ->
  fails (get_features env outer inner fields_df start_date end_date sentinel
           fields_threads).
Proof.
  intros Hin Hf.
  destruct (Z_le_gt_dec fields_threads 0) as [Hle|Hgt].
  { exists ValueError. unfold get_features, ThreadPoolExecutor.
    destruct (fields_threads <=? 0) eqn:E; [reflexivity | lia]. }
  destruct (two_row_table_dec coords fields_df) as [(label & f1 & f2 & ->)|Hnot].
  { exists KeyError. apply get_features_two_rows. lia. }
  unfold get_features, ThreadPoolExecutor.
  destruct (fields_threads <=? 0) eqn:E; [lia|]. cbn [bind].
  rewrite submissions_rows by exact Hnot. cbn [bind].
  destruct (run_tasks_In inner (label_of fields_df) start_date end_date
              sentinel fields_threads _ f Hin O) as [i' Hi'].
  destruct (Hf (inner i')) as [e He]. rewrite He in Hi'.
  destruct (gather_In_fails e outer _ Hi') as [e' He'].
  rewrite He'. exists e'. reflexivity.
Qed.

(** X13.  A table of exactly two fields is never processed: for every
    platform and satellite, with at least one field-level worker,
    [get_features] submits one task for the whole table and raises
    [KeyError]. *)
Theorem two_row_table_KeyError (fields_df : pandas_obj coords)
  (fields_threads : Z) :
  1 <= fields_threads ->
  two_row_table fields_df ->
  submissions fields_df fields_threads = Ok [(fields_df, fields_threads)] /\
  forall outer inner start_date end_date sentinel,
    get_features env outer inner fields_df start_date end_date sentinel
      fields_threads = Raise KeyError.
Proof.
  intros Hft (label & f1 & f2 & ->). split; [reflexivity|].
  intros. apply get_features_two_rows. exact Hft.
Qed.

End Coverage.

(** ** The split of the date range, case by case *)

(** X15.  What lines 151-153 do with [n] dates and an inner worker count
    [k]: [ZeroDivisionError] for [k = 0]; [ValueError], from a zero step of
    [range], for fewer dates than workers and for no date at all; no chunk
    at all, silently, for a negative [k] and at least one date; and chunks
    that concatenate to the dates for [1 <= k <= n]. *)
Theorem split_dates_cases (A : Type) (dates : list A) (k : Z) :
  (k = 0 -> split_dates dates k = Raise ZeroDivisionError) /\
  (1 <= k -> len dates < k -> split_dates dates k = Raise ValueError) /\
  (k <> 0 -> dates = [] -> split_dates dates k = Raise ValueError) /\
  (k < 0 -> dates <> [] -> split_dates dates k = Ok []) /\
  (1 <= k <= len dates ->
   exists chunks, split_dates dates k = Ok chunks /\ concat chunks = dates).
Proof.
  assert (Hn : 0 <= len dates) by (unfold len; lia).
  split; [|split; [|split; [|split]]].
  - intros ->. reflexivity.
  - intros Hk Hlt. unfold split_dates, floordiv, py_range.
    destruct (k =? 0) eqn:E0; [lia|]. cbn [bind].
    rewrite Z.div_small by lia. reflexivity.
  - intros Hk ->. unfold split_dates, floordiv, py_range.
    destruct (k =? 0) eqn:E0; [lia|]. reflexivity.
  - intros Hk Hne. unfold split_dates, floordiv, py_range.
    destruct (k =? 0) eqn:E0; [lia|]. cbn [bind].
    assert (Hpos : 0 < len dates)
      by (destruct dates; [congruence | unfold len; simpl; lia]).
    assert (Hc : len dates / k < 0).
    { pose proof (Z.div_mod (len dates) k ltac:(lia)) as Hdm.
      pose proof (Z.mod_neg_bound (len dates) k Hk) as Hr. nia. }
    destruct (len dates / k =? 0) eqn:E1; [lia|]. cbn [bind].
    destruct (0 <? len dates / k) eqn:E2; [lia|].
    destruct (len dates <? 0) eqn:E3; [lia|]. reflexivity.
  - intros Hk. eexists. split; [apply split_dates_Ok; exact Hk|].
    eapply split_dates_concat; [apply split_dates_Ok; exact Hk | lia].
Qed.

(** X16.  For [1 <= k <= n] the split makes fewer than [2 k] chunks: the
    pool of [k] workers is handed at most [2 k - 1] chunk tasks. *)
Theorem split_dates_chunk_count (A : Type) (dates : list A) (k : Z)
  (chunks : list (list A)) :
  1 <= k <= len dates ->
  split_dates dates k = Ok chunks ->
  k <= len chunks <= 2 * k - 1.
Proof.
  intros Hk H. rewrite split_dates_Ok in H by exact Hk.
  inversion H; subst chunks; clear H.
  set (n := len dates) in *. set (c := n / k).
  assert (Hlen : len (chunks_of (Z.to_nat c) (Z.to_nat ((n - 1) / c + 1)) dates)
                 = Z.of_nat (Z.to_nat ((n - 1) / c + 1)))
    by (unfold len; rewrite chunks_of_length; reflexivity).
  rewrite Hlen. clear Hlen.
  assert (Hc : 1 <= c) by (apply Z.div_le_lower_bound; lia).
  assert (Hck : c * k <= n) by (rewrite Z.mul_comm; apply Z.mul_div_le; lia).
  assert (Hck' : n < k * (c + 1))
    by (pose proof (Z.mul_succ_div_gt n k); unfold c; lia).
  assert (Hq0 : 0 <= (n - 1) / c) by (apply Z.div_pos; lia).
  assert (Hlo : k - 1 <= (n - 1) / c)
    by (apply Z.div_le_lower_bound; nia).
  assert (Hhi : (n - 1) / c < 2 * k - 1)
    by (apply Z.div_lt_upper_bound; nia).
  lia.
Qed.

(** ** Further runs on the sample platforms *)

Lemma sample_platform_answers (T : Z) (dates : list date) :
  optical_answers (sample_platform T dates).
Proof.
  split.
  - intros c d g. eexists. split; [reflexivity|].
    repeat constructor; discriminate.
  - intros name args. unfold sample_platform, optical_features.
    destruct (String.eqb name "get_all_bands"); eexists; reflexivity.
Qed.

Lemma sample_pairs_NoDup :
  NoDup
    (map pair_key
       (reported_pairs (sample_platform 4 [10; 20])
          (DataFrame "crop" [field_c; field_a; field_b]) "2023-01-01"
          "2023-12-31" 2)).
Proof.
  vm_compute.
  repeat (apply NoDup_cons;
          [simpl; intros H;
           repeat (destruct H as [H|H]; [discriminate H|]); exact H|]).
  apply NoDup_nil.
Qed.


(** [get_features_returns_only_if] on the sample run. *)
Lemma returns_only_if_witness :
  2 = 2 /\
  1 <= 2 /\
  ~ two_row_table (DataFrame "crop" [field_c; field_a; field_b]) /\
  fields_of (DataFrame "crop" [field_c; field_a; field_b]) <> [] /\
  sample_table <> [] /\
  forall f,
    In f (fields_of (DataFrame "crop" [field_c; field_a; field_b])) ->
    exists dates,
      getInfo_dates (sample_platform 4 [10; 20])
        (sentinel2_collection (Polygon (field_polygon f)) "2023-01-01"
           "2023-12-31")
      = Ok dates /\
      1 <= max_workers (sample_platform 4 [10; 20]) - 2 <= len dates.
Proof.
  apply (get_features_returns_only_if Z unit (sample_platform 4 [10; 20])
           [2%nat; 0%nat] (fun _ => [1%nat])
           (DataFrame "crop" [field_c; field_a; field_b])
           "2023-01-01" "2023-12-31" 2 2 sample_table).
  vm_compute. reflexivity.
Defined.


(** [table_columns] on the sample table. *)
Lemma table_columns_witness :
  columns sample_table = "crop" :: feature_columns Z unit 2 /\
  length (columns sample_table) = 63%nat /\
  Forall (fun r => keys r = "crop" :: feature_columns Z unit 2) sample_table.
Proof.
  apply (table_columns Z unit (sample_platform 4 [10; 20])
           [2%nat; 0%nat] (fun _ => [1%nat])
           (DataFrame "crop" [field_c; field_a; field_b])
           "2023-01-01" "2023-12-31" 2 2 sample_table).
  - vm_compute. reflexivity.
  - apply existsb_eqb_false. vm_compute. reflexivity.
Defined.

(** [process_chunk_fail_fast]: the bands of day 30 cannot be read, and the
    chunk 10, 30, 20 yields nothing. *)
Lemma process_chunk_fail_fast_witness :
  fails
    (process_chunk flaky_platform
       (sentinel2_collection (Polygon 3) "2023-01-01" "2023-12-31")
       [10; 30; 20] (Polygon 3) "crop" "a" 2).
Proof.
  apply (process_chunk_fail_fast Z Z flaky_platform
           (sentinel2_collection (Polygon 3) "2023-01-01" "2023-12-31")
           [10; 30; 20] (Polygon 3) "crop" "a" 2 30
           (EEException "timeout")).
  - right. left. reflexivity.
  - vm_compute. reflexivity.
Defined.

(** [parallelize_returns_all_dates] on three dates and two inner workers. *)
Lemma parallelize_returns_all_dates_witness :
  1 <= max_workers (sample_platform 4 [10; 20; 30]) - 2 <= len [10; 20; 30] /\
  exists rs,
    Forall2
      (fun d r =>
         process_chunk (sample_platform 4 [10; 20; 30])
           (sentinel2_collection (Polygon tt) "2023-01-01" "2023-12-31") [d]
           (Polygon tt) "crop" "a" 2 = Ok [r])
      [10; 20; 30] rs /\
    Permutation rs sample_field_rows.
Proof.
  apply (parallelize_returns_all_dates Z unit (sample_platform 4 [10; 20; 30])
           []
           (sentinel2_collection (Polygon tt) "2023-01-01" "2023-12-31")
           [10; 20; 30] (Polygon tt) "crop" "a" 2 2 sample_field_rows).
  vm_compute. reflexivity.
Defined.

(** [parallelize_succeeds]: the same rows, with the last chunk finishing
    first. *)
Lemma parallelize_succeeds_witness :
  exists rows,
    parallelize_features_read (sample_platform 4 [10; 20; 30]) [2%nat]
      (sentinel2_collection (Polygon tt) "2023-01-01" "2023-12-31")
      [10; 20; 30] (Polygon tt) "crop" "a" 2 2 = Ok rows /\
    Permutation sample_field_rows rows.
Proof.
  apply (parallelize_succeeds Z unit (sample_platform 4 [10; 20; 30])
           [2%nat]
           (sentinel2_collection (Polygon tt) "2023-01-01" "2023-12-31")
           [10; 20; 30] (Polygon tt) "crop" "a" 2 2 sample_field_rows).
  - vm_compute. split; discriminate.
  - unfold sample_field_rows.
    repeat (apply Forall2_cons; [vm_compute; reflexivity|]).
    apply Forall2_nil.
Defined.

(** [process_field_rows_of_field] on field a of the sample platform. *)
Lemma process_field_rows_of_field_witness :
  2 = 2 /\
  Permutation (map (row_key "crop" 2) sample_field_rows)
    (map (fun d => Some (field_name field_a, d))
       (reported_dates (sample_platform 4 [10; 20; 30]) "2023-01-01"
          "2023-12-31" 2 field_a)).
Proof.
  apply (process_field_rows_of_field Z unit (sample_platform 4 [10; 20; 30])
           [] "crop" field_a "2023-01-01" "2023-12-31" 2 2 sample_field_rows).
  - vm_compute. reflexivity.
  - apply existsb_eqb_false. vm_compute. reflexivity.
Defined.

(** [few_dates_fail]: three dates, six inner workers. *)
Lemma few_dates_fail_witness :
  (forall picks,
     process_field (sample_platform 8 [10; 20; 30]) picks
       (Series "crop" field_a) "2023-01-01" "2023-12-31" 2 2
     = Raise ValueError) /\
  (1 <= 2 ->
   forall outer inner,
     get_features (sample_platform 8 [10; 20; 30]) outer inner
       (Series "crop" field_a) "2023-01-01" "2023-12-31" 2 2
     = Raise ValueError).
Proof.
  apply (few_dates_fail Z unit (sample_platform 8 [10; 20; 30]) "crop" field_a
           "2023-01-01" "2023-12-31" 2 2
           (sentinel2_collection (Polygon tt) "2023-01-01" "2023-12-31")
           [10; 20; 30]).
  - reflexivity.
  - reflexivity.
  - vm_compute. reflexivity.
Defined.

(** [one_failing_field_fails_all]: the platform has no image for the second
    of three fields, and the call returns nothing for the other two. *)
Lemma one_failing_field_fails_all_witness :
  fails
    (get_features flaky_platform [] no_picks
       (DataFrame "crop" [tagged_a; tagged_none; tagged_b]) "2023-01-01"
       "2023-12-31" 2 2).
Proof.
  apply (one_failing_field_fails_all Z Z flaky_platform [] no_picks
           (DataFrame "crop" [tagged_a; tagged_none; tagged_b]) "2023-01-01"
           "2023-12-31" 2 2 tagged_none).
  - right. left. reflexivity.
  - intros picks. exists (EEException "no image"). reflexivity.
Defined.

(** [two_row_table_KeyError] on a table of two fields. *)
Lemma two_row_table_KeyError_witness :
  submissions (DataFrame "crop" [field_a; field_b]) 2
  = Ok [(DataFrame "crop" [field_a; field_b], 2)] /\
  forall outer inner start_date end_date sentinel,
    get_features (sample_platform 8 [10; 20; 30]) outer inner
      (DataFrame "crop" [field_a; field_b]) start_date end_date sentinel 2
    = Raise KeyError.
Proof.
  apply (two_row_table_KeyError Z unit (sample_platform 8 [10; 20; 30])
           (DataFrame "crop" [field_a; field_b]) 2).
  - lia.
  - exists "crop", field_a, field_b. reflexivity.
Defined.

(** [split_dates_chunk_count]: seven dates, two workers, three chunks. *)
Lemma split_dates_chunk_count_witness :
  2 <= len [[1; 2; 3]; [4; 5; 6]; [7]] <= 2 * 2 - 1.
Proof.
  apply (split_dates_chunk_count Z [1; 2; 3; 4; 5; 6; 7] 2
           [[1; 2; 3]; [4; 5; 6]; [7]]).
  - vm_compute. split; discriminate.
  - reflexivity.
Defined.

(** [split_dates_cases], one run for each case. *)
Lemma split_dates_cases_witness :
  split_dates [1; 2] 0 = Raise ZeroDivisionError /\
  split_dates [1; 2] 4 = Raise ValueError /\
  split_dates (@nil Z) (-3) = Raise ValueError /\
  split_dates [1; 2; 3] (-1) = Ok [] /\
  exists chunks,
    split_dates [1; 2; 3; 4; 5] 2 = Ok chunks /\
    concat chunks = [1; 2; 3; 4; 5].
Proof.
  destruct (split_dates_cases Z [1; 2] 0) as (H0 & _).
  destruct (split_dates_cases Z [1; 2] 4) as (_ & H1 & _).
  destruct (split_dates_cases Z [] (-3)) as (_ & _ & H2 & _).
  destruct (split_dates_cases Z [1; 2; 3] (-1)) as (_ & _ & _ & H3 & _).
  destruct (split_dates_cases Z [1; 2; 3; 4; 5] 2) as (_ & _ & _ & _ & H4).
  split; [apply H0; reflexivity|].
  split; [apply H1; [lia | vm_compute; reflexivity]|].
  split; [apply H2; [lia | reflexivity]|].
  split; [apply H3; [lia | discriminate]|].
  apply H4. vm_compute. split; discriminate.
Defined.
